(** * graphcool-framework: the deploy command and the project-file helpers

    A shallow embedding of
    - [src/utils/file.ts] (project file read/write helpers), and
    - [cli/packages/graphcool-cli-core/src/commands/deploy/index.ts]
      (the [Deploy] command: [run], [createProject], [deploy] and
      [isValidProjectName]),
    followed by the properties established about them.

    JavaScript strings are sequences of code units; they are modelled by
    [string] (code units below 256), indices and lengths by [Z]. *)

From Stdlib Require Import String Ascii List ZArith Lia Bool.
From stdpp Require Import gmap strings.
Import ListNotations.

Local Open Scope string_scope.
Local Open Scope Z_scope.

(** ** JavaScript string primitives used by the sources *)

Module JS.

Definition length (s : string) : Z := Z.of_nat (String.length s).

(** [s.startsWith(pat)]. *)
Fixpoint startsWith (pat s : string) : bool :=
  match pat, s with
  | EmptyString, _ => true
  | String _ _, EmptyString => false
  | String a pat', String b s' => Ascii.eqb a b && startsWith pat' s'
  end.

(** [s.indexOf(pat)], scanning from position [i]: the least index at
    which [pat] occurs, [-1] when it occurs nowhere. *)
Fixpoint indexOf_from (pat s : string) (i : Z) : Z :=
  if startsWith pat s then i
  else match s with
       | EmptyString => -1
       | String _ s' => indexOf_from pat s' (i + 1)
       end.

Definition indexOf (pat s : string) : Z := indexOf_from pat s 0.

(** [s.includes(pat)]. *)
Definition includes (pat s : string) : bool := 0 <=? indexOf pat s.

Fixpoint drop (n : nat) (s : string) : string :=
  match n, s with
  | O, _ => s
  | S _, EmptyString => EmptyString
  | S n', String _ s' => drop n' s'
  end.

Fixpoint take (n : nat) (s : string) : string :=
  match n, s with
  | O, _ => EmptyString
  | S _, EmptyString => EmptyString
  | S n', String c s' => String c (take n' s')
  end.

(** Both arguments of [substring] are clamped to [0 .. length]. *)
Definition clamp (s : string) (i : Z) : Z := Z.max 0 (Z.min i (length s)).

(** [s.substring(start, end)]: the arguments are clamped, and swapped
    when [start > end]. *)
Definition substring (s : string) (start end_ : Z) : string :=
  let a := clamp s start in
  let b := clamp s end_ in
  let lo := Z.min a b in
  let hi := Z.max a b in
  take (Z.to_nat (hi - lo)) (drop (Z.to_nat lo) s).

(** [s.endsWith(suffix)]. *)
Definition endsWith (suffix s : string) : bool :=
  (length suffix <=? length s)
  && String.eqb (drop (Z.to_nat (length s - length suffix)) s) suffix.

(** Truthiness of a [string | undefined] value: [undefined] and the empty
    string are falsy. *)
Definition truthy (v : option string) : bool :=
  match v with
  | None => false
  | Some s => negb (String.eqb s "")
  end.

(** [a || b] on [string | undefined] values. *)
Definition or_else (a b : option string) : option string :=
  if truthy a then a else b.

(** String conversion inside a template literal. *)
Definition to_string (v : option string) : string :=
  match v with
  | None => "undefined"
  | Some s => s
  end.

(** *** Regular expressions

    The three regular expressions of the sources are
    - "# project: " followed by a capture group of [a-z0-9] repeated,
    - "# version: " followed by a capture group of [a-z0-9] repeated,
    - "^[A-Z]" followed by a capture group of "." repeated.
    They share one shape: an optional "^", a sequence of one-character
    atoms, and one trailing capture group, a starred character class C.
    They carry no flag.  The greedy star closes the pattern, so nothing
    follows it that could force it to give characters back: a match is
    the leftmost position at which the atoms match, followed by the
    longest run of C. *)

Record regex : Type := Regex {
  anchored : bool;                  (* the pattern starts with ^ *)
  atoms : list (ascii -> bool);     (* one-character atoms *)
  group_class : ascii -> bool       (* the class C of the capture group *)
}.

Definition lit (s : string) : list (ascii -> bool) :=
  map Ascii.eqb (list_ascii_of_string s).

Definition in_range (lo hi c : ascii) : bool :=
  (nat_of_ascii lo <=? nat_of_ascii c)%nat
  && (nat_of_ascii c <=? nat_of_ascii hi)%nat.

(** [[a-z0-9]] *)
Definition lower_alnum (c : ascii) : bool :=
  in_range "a" "z" c || in_range "0" "9" c.

(** [[A-Z]] *)
Definition upper (c : ascii) : bool := in_range "A" "Z" c.

(** [.]: any code unit but a line terminator (of which only line feed
    and carriage return are below 256). *)
Definition dot (c : ascii) : bool :=
  negb (Ascii.eqb c "010" || Ascii.eqb c "013").

(** The atoms matched at the head of [s]: the text consumed and the
    rest. *)
Fixpoint match_atoms (ps : list (ascii -> bool)) (s : string)
  : option (string * string) :=
  match ps with
  | [] => Some (EmptyString, s)
  | p :: ps' =>
      match s with
      | EmptyString => None
      | String c s' =>
          if p c then
            match match_atoms ps' s' with
            | Some (m, rest) => Some (String c m, rest)
            | None => None
            end
          else None
      end
  end.

(** The longest prefix of [s] within the class [p]. *)
Fixpoint span (p : ascii -> bool) (s : string) : string :=
  match s with
  | EmptyString => EmptyString
  | String c s' => if p c then String c (span p s') else EmptyString
  end.

(** A match that starts at the head of [s]: the array
    of the whole match and the capture. *)
Definition match_here (r : regex) (s : string) : option (list string) :=
  match match_atoms (atoms r) s with
  | Some (m, rest) =>
      let g := span (group_class r) rest in
      Some [m ++ g; g]
  | None => None
  end.

Fixpoint search (r : regex) (s : string) : option (list string) :=
  match match_here r s with
  | Some ms => Some ms
  | None =>
      match s with
      | EmptyString => None
      | String _ s' => search r s'
      end
  end.

(** [s.match(r)] for a regular expression without the [g] flag: [null]
    or the array of the whole match and the captures. *)
Definition match_ (r : regex) (s : string) : option (list string) :=
  if anchored r then match_here r s else search r s.

(** [r.test(s)]. *)
Definition test (r : regex) (s : string) : bool :=
  match match_ r s with
  | Some _ => true
  | None => false
  end.

(** The line feed of the template literals. *)
Definition nl : string := String "010" EmptyString.

End JS.

(** ** Exceptions and results *)

(** An entry of the [targets] object of the local configuration. *)
Module Target.
Record t : Type := {
  cluster : string;
  id : string
}.
End Target.

Inductive exn : Type :=
| TypeError (msg : string)            (* a property read on [undefined] *)
| RemoteError (msg : string)          (* a rejected collaborator call *)
| FileError (path : string)           (* [resolver.read] of a missing file *)
| ServiceDoesntExistError (target : Target.t).

Inductive Res (A : Type) : Type :=
| Ok (a : A)
| Throw (e : exn).
Arguments Ok {A} a.
Arguments Throw {A} e.

Definition res_bind {A B : Type} (m : Res A) (k : A -> Res B) : Res B :=
  match m with
  | Ok a => k a
  | Throw e => Throw e
  end.

Declare Scope res_scope.
Delimit Scope res_scope with res.
Notation "'do' x <- m ; k" := (res_bind m (fun x => k))
  (at level 10, x name, m at level 100, k at level 200) : res_scope.

(** ** Data of the deploy command *)

(** The parsed command line ([static flags]). *)
Module Flags.
Record t : Type := {
  target : option string;
  force : bool;
  watch : bool;
  new_service : option string;            (* 'new-service' *)
  new_service_cluster : option string;    (* 'new-service-cluster' *)
  alias : option string
}.
End Flags.

(** What [env.getTargetWithName] resolves a reference to. *)
Record FoundTarget : Type := {
  targetName : string;
  target : Target.t
}.

Record MigrationMessage : Type := {
  message : string
}.

Record MigrationError : Type := {
  description : string
}.

(** Plain terminal: chalk leaves its argument unchanged when colours are
    off. Used to instantiate the development on concrete runs. *)
Definition no_color : bool := false.

(** An endpoint scheme to run the development on: [env.simpleEndpoint]. *)
Definition sample_endpoint (projectId : string) : string :=
  ("https://api.graph.cool/simple/v1/" ++ projectId)%string.

(** ** src/utils/file.ts *)

Section Command.

(** Constants of [./constants], which is outside the sources at hand:
    the default project file name and the project file suffix. *)
Variable graphcoolProjectFileName : string.
Variable projectFileSuffix : string.

Record ProjectInfo : Type := {
  projectId : string;
  version : option string;
  schema : string
}.

(** Modelled from the spec: the [Resolver] interface ([../types]) is
    outside the sources at hand.  It gives access to a file store: [read],
    [write] and [delete] by path.  The store is a finite map from paths to
    contents; reading a path that holds no file throws. *)
Abbreviation Resolver := (gmap string string).

Definition read (resolver : Resolver) (path : string) : Res string :=
  match resolver !! path with
  | Some contents => Ok contents
  | None => Throw (FileError path)
  end.

Definition write (resolver : Resolver) (path contents : string) : Resolver :=
  <[path := contents]> resolver.

(** Modelled from the spec: [projectInfoToContents] of [./utils] is
    outside the sources at hand.  The persisted format is line oriented:
    a line [# project: <id>], a line [# version: <v>], and the schema
    text as the remainder. *)
Definition projectInfoToContents (projectInfo : ProjectInfo) : string :=
  ("# project: " ++ projectId projectInfo ++ JS.nl
   ++ "# version: " ++ JS.to_string (version projectInfo) ++ JS.nl
   ++ JS.nl ++ schema projectInfo)%string.

Definition isValidProjectFilePath (projectFilePath : option string) : bool :=
  if negb (JS.truthy projectFilePath) then false
  else JS.endsWith projectFileSuffix (JS.to_string projectFilePath).

(** The path [writeProjectFile] writes to. *)
Definition projectFilePath (path : option string) : option string :=
  if isValidProjectFilePath path then path else Some graphcoolProjectFileName.

(** [path!] is always defined here; the conversion covers the case the
    type system excludes. *)
Definition writeProjectFile (projectInfo : ProjectInfo) (resolver : Resolver)
    (path : option string) : Resolver :=
  let path := projectFilePath path in
  write resolver (JS.to_string path) (projectInfoToContents projectInfo).

Definition project_re : JS.regex :=
  JS.Regex false (JS.lit "# project: ") JS.lower_alnum.

Definition version_re : JS.regex :=
  JS.Regex false (JS.lit "# version: ") JS.lower_alnum.

(** The tail shared by [readProjectIdFromProjectFile] and
    [readVersionFromProjectFile]: [undefined] unless the match array has
    two entries, else its entry 1. *)
Definition group1 (matches : option (list string)) : option string :=
  match matches with
  | None => None
  | Some ms =>
      if negb (Nat.eqb (List.length ms) 2) then None
      else nth_error ms 1
  end.

Definition readProjectIdFromProjectFile (resolver : Resolver) (path : string)
  : Res (option string) :=
  (do contents <- read resolver path;
   let matches := JS.match_ project_re contents in
   Ok (group1 matches))%res.

Definition readVersionFromProjectFile (resolver : Resolver) (path : string)
  : Res (option string) :=
  (do contents <- read resolver path;
   let matches := JS.match_ version_re contents in
   Ok (group1 matches))%res.

Definition readDataModelFromProjectFile (resolver : Resolver) (path : string)
  : Res string :=
  (do contents <- read resolver path;
   let dataModelStartIndex := JS.indexOf "type" contents in
   let dataModel :=
     JS.substring contents dataModelStartIndex (JS.length contents) in
   Ok dataModel)%res.

Definition readProjectInfoFromProjectFile (resolver : Resolver) (path : string)
  : Res (option ProjectInfo) :=
  (do projectId <- readProjectIdFromProjectFile resolver path;
   match projectId with
   | None => Ok None
   | Some pid =>
       if negb (JS.truthy (Some pid)) then Ok None
       else
         do version <- readVersionFromProjectFile resolver path;
         do schema <- readDataModelFromProjectFile resolver path;
         Ok (Some {| projectId := pid; version := version; schema := schema |})
   end)%res.


(** ** cli/packages/graphcool-cli-core/src/commands/deploy/index.ts *)

(** The service definition is opaque to the command. *)
Variable ProjectDefinition : Type.
Variable emptyDefinition : ProjectDefinition.      (* ./emptyDefinition *)

(** The synchronous members of [this.env] and [this.config], and the name
    [sillyName()] draws. *)
Variable getTargetWithName : option string -> option FoundTarget.
Variable getDefaultTargetName : string -> string.
Variable isSharedCluster : string -> bool.
Variable getRegionFromCluster : string -> option string.
Variable simpleEndpoint : string -> string.
Variable definitionDir : string.
Variable sillyName : string.

(** chalk wraps its argument in a pair of SGR escape sequences, and
    returns it unchanged when colours are off. *)
Variable colorEnabled : bool.

Definition esc : string := String "027" "[".

Definition sgr (open close s : string) : string :=
  if colorEnabled
  then (esc ++ open ++ "m" ++ s ++ esc ++ close ++ "m")%string
  else s.

Definition chalk_bold : string -> string := sgr "1" "22".
Definition chalk_red : string -> string := sgr "31" "39".
Definition chalk_green : string -> string := sgr "32" "39".
Definition chalk_cyan : string -> string := sgr "36" "39".
Definition chalk_rgb_244_157_65 : string -> string :=
  sgr "38;2;244;157;65" "39".

(** The result of [client.push].  The command tests both lists for
    absence, so they are optional here. *)
Record MigrationResult : Type := {
  migrationMessages : option (list MigrationMessage);
  errors : option (list MigrationError);
  projectDefinition : ProjectDefinition
}.

(** The variables a watch callback closes over. *)
Record Callback : Type := {
  cb_flags : Flags.t;
  cb_projectIsNew : bool;
  cb_targetName : option string;
  cb_projectId : string;
  cb_isLocal : bool;
  cb_force : bool;
  cb_projectName : option string
}.

(** Calls on the collaborators, in the order they are made. *)
Inductive Event : Type :=
| Log (text : string)                              (* out.log *)
| ActionStart (text : string)                      (* out.action.start *)
| ActionStop                                       (* out.action.stop *)
| PrintMessages (ms : list MigrationMessage)       (* out.migration *)
| PrintErrors (es : list MigrationError)
| SetActiveCluster (c : string)
| EnsureAuth
| DefinitionLoad (flags : Flags.t)
| InjectEnvironment
| DefinitionSet (d : ProjectDefinition)
| ClientCreateProject (name : string) (d : ProjectDefinition)
    (alias region : option string)
| ClientPush (projectId : string) (force dryRun : bool)
    (d : option ProjectDefinition)
| SetLocalTarget (name : option string) (value : string)
| SetLocalDefaultTarget (name : option string)
| SaveLocalRC
| Watch (dir : string) (cb : Callback).            (* chokidar.watch *)

(** The mutable state the command reads and writes: its own [deploying]
    field, [this.definition.definition], and two fields of [this.env]. *)
Record State : Type := {
  deploying : bool;
  definition : option ProjectDefinition;
  activeCluster : string;
  env_default : option string
}.

(** A computation reads and writes the state, makes calls, and returns or
    throws.  A throw keeps the state and the calls made so far. *)
Definition M (A : Type) : Type := State -> Res A * State * list Event.

Definition ret {A : Type} (a : A) : M A := fun s => (Ok a, s, []).

Definition bind {A B : Type} (m : M A) (k : A -> M B) : M B :=
  fun s =>
    match m s with
    | (Ok a, s', evs) =>
        match k a s' with
        | (r, s'', evs') => (r, s'', (evs ++ evs')%list)
        end
    | (Throw e, s', evs) => (Throw e, s', evs)
    end.

Definition throw {A : Type} (e : exn) : M A := fun s => (Throw e, s, []).
Definition emit (ev : Event) : M unit := fun s => (Ok tt, s, [ev]).
Definition get : M State := fun s => (Ok s, s, []).
Definition put (s : State) : M unit := fun _ => (Ok tt, s, []).

(** Resuming at an [await] with the settled promise. *)
Definition await {A : Type} (reply : Res A) : M A :=
  match reply with
  | Ok a => ret a
  | Throw e => throw e
  end.

(** Reading a property ([.length]) of a value that may be [undefined]. *)
Definition defined {A : Type} (v : option A) : M A :=
  match v with
  | Some a => ret a
  | None => throw (TypeError "Cannot read property of undefined")
  end.


Declare Scope cmd_scope.
Delimit Scope cmd_scope with cmd.
Notation "'do' x <- m ; k" := (bind m (fun x => k))
  (at level 10, x name, m at level 100, k at level 200) : cmd_scope.
Notation "m ;; k" := (bind m (fun _ => k))
  (at level 100, k at level 200, right associativity) : cmd_scope.
Local Open Scope cmd_scope.

Definition when (b : bool) (m : M unit) : M unit :=
  if b then m else ret tt.

Definition log (text : string) : M unit := emit (Log text).

Definition set_deploying (b : bool) : M unit :=
  do s <- get;
  put {| deploying := b; definition := definition s;
         activeCluster := activeCluster s; env_default := env_default s |}.

Definition set_definition (d : option ProjectDefinition) : M unit :=
  do s <- get;
  put {| deploying := deploying s; definition := d;
         activeCluster := activeCluster s; env_default := env_default s |}.

(** Modelled from the spec: [env.setActiveCluster], outside the sources at
    hand, assigns the active cluster. *)
Definition setActiveCluster (c : string) : M unit :=
  emit (SetActiveCluster c) ;;
  do s <- get;
  put {| deploying := deploying s; definition := definition s;
         activeCluster := c; env_default := env_default s |}.

(** Modelled from the spec: [env.setLocalDefaultTarget], outside the
    sources at hand, sets the local default target. *)
Definition setLocalDefaultTarget (name : option string) : M unit :=
  emit (SetLocalDefaultTarget name) ;;
  do s <- get;
  put {| deploying := deploying s; definition := definition s;
         activeCluster := activeCluster s; env_default := name |}.

(** Modelled from the spec: [definition.set] belongs to the definition
    loader, which is outside the sources at hand; it overwrites the project
    definition in memory. *)
Definition definition_set (d : ProjectDefinition) : M unit :=
  emit (DefinitionSet d) ;; set_definition (Some d).

(** Modelled from the spec: [definition.load] belongs to the definition
    loader, which is outside the sources at hand; it populates the current
    definition from disk.  The call, and its completion. *)
Definition definition_load_call (flags : Flags.t) : M unit :=
  emit (DefinitionLoad flags).

Definition definition_load_resume (reply : Res ProjectDefinition) : M unit :=
  do d <- await reply;
  set_definition (Some d).

(** [x.length === 0] guarded by [!x]. *)
Definition absent_or_empty {A : Type} (v : option (list A)) : bool :=
  match v with
  | None => true
  | Some l => Nat.eqb (List.length l) 0
  end.

Definition up_to_date_text : string := "Everything up-to-date.".

Definition endpoint_text (projectId : string) : string :=
  ("Endpoint: " ++ simpleEndpoint projectId)%string.

Definition created_text : string :=
  (JS.nl ++ "Success! Created the following service:")%string.

Definition issues_text : string :=
  chalk_rgb_244_157_65 "There are issues with the new service definition:".

(** The remediation hint of the destructive-change rejection. *)
Definition force_hint : string :=
  ("Your changes might result in data loss." ++ JS.nl
   ++ "          Use " ++ chalk_cyan "`graphcool deploy --force`"
   ++ " if you know what you're doing!" ++ JS.nl)%string.

Definition watching_text : string := "Watching for change...".

(** *** [Deploy.deploy]

    The method suspends once, at [await this.client.push(...)].
    [deploy_call] is the part before the suspension and [deploy_resume]
    the part after it, given the settled promise. *)

Definition deploy_call (projectIsNew : bool) (targetName : option string)
    (projectId : string) (isLocal force : bool) (projectName : option string)
  : M unit :=
  set_deploying true ;;
  let localNote := if isLocal then " locally" else "" in
  emit (ActionStart
          (if projectIsNew
           then ("Deploying" ++ localNote)%string
           else ("Deploying to " ++ chalk_bold (JS.to_string projectName)
                 ++ " with target " ++ chalk_bold (JS.to_string targetName)
                 ++ localNote)%string)) ;;
  do s <- get;
  emit (ClientPush projectId force false (definition s)).

Definition deploy_resume (projectIsNew : bool) (targetName : option string)
    (projectId : string) (isLocal force : bool) (projectName : option string)
    (reply : Res MigrationResult) : M unit :=
  do migrationResult <- await reply;
  emit ActionStop ;;
  (* no action required *)
  if absent_or_empty (migrationMessages migrationResult)
     && absent_or_empty (errors migrationResult)
  then
    log up_to_date_text ;;
    log (endpoint_text projectId) ;;
    set_deploying false
  else
    do messages <- defined (migrationMessages migrationResult);
    when (0 <? List.length messages)%nat
      ((if projectIsNew then log created_text
        else
          do errs <- defined (errors migrationResult);
          let updateText :=
            if (0 <? List.length errs)%nat
            then (chalk_red "Error!" ++ " Here are the potential changes:")%string
            else (chalk_green "Success!" ++ " Here is what changed:")%string in
          log updateText) ;;
       emit (PrintMessages messages) ;;
       definition_set (projectDefinition migrationResult)) ;;
    do errs <- defined (errors migrationResult);
    when (0 <? List.length errs)%nat
      (log issues_text ;;
       emit (PrintErrors errs) ;;
       log "") ;;
    when (match errors migrationResult with
          | None => false
          | Some es =>
              (0 <? List.length es)%nat
              && match nth_error es 0 with
                 | Some e0 => JS.includes "destructive changes" (description e0)
                 | None => false
                 end
          end)
      (* potentially destructive changes *)
      (log force_hint) ;;
    set_deploying false ;;
    log (endpoint_text projectId).

Definition deploy (projectIsNew : bool) (targetName : option string)
    (projectId : string) (isLocal force : bool) (projectName : option string)
    (reply : Res MigrationResult) : M unit :=
  deploy_call projectIsNew targetName projectId isLocal force projectName ;;
  deploy_resume projectIsNew targetName projectId isLocal force projectName
    reply.


(** *** [Deploy.createProject] and [Deploy.run] *)

(** What the awaited collaborators answer during one [run]. *)
Record Replies : Type := {
  auth_reply : Res unit;                       (* auth.ensureAuth *)
  load_reply : Res ProjectDefinition;          (* definition.load *)
  create_reply : Res string;                   (* client.createProject: the id *)
  push_reply : Res MigrationResult             (* client.push *)
}.

(** [out.error] reports the error and ends the command. *)
Definition out_error {A : Type} (e : exn) : M A := throw e.

(** [env.setLocalTarget]. *)
Definition setLocalTarget (name : option string) (value : string) : M unit :=
  emit (SetLocalTarget name value).

Definition createProject (isLocal : bool) (cluster : string)
    (name alias region : option string) (reply : Res string) : M string :=
  let localNote := if isLocal then " locally" else "" in
  let projectName := JS.to_string (JS.or_else name (Some sillyName)) in
  log "" ;;
  let projectMessage :=
    ("Creating service " ++ chalk_bold projectName ++ localNote
     ++ " in cluster " ++ cluster)%string in
  emit (ActionStart projectMessage) ;;
  (* create project *)
  emit (ClientCreateProject projectName emptyDefinition alias region) ;;
  do createdProject <- await reply;
  emit ActionStop ;;
  ret createdProject.

Definition run (flags : Flags.t) (w : Replies) : M unit :=
  let force := Flags.force flags in
  let watch := Flags.watch flags in
  let alias := Flags.alias flags in
  let newServiceName := Flags.new_service flags in
  let newServiceCluster := Flags.new_service_cluster flags in
  (* target can be both key or value of the targets object *)
  do resolved <-
    (if JS.truthy newServiceName then
       when (JS.truthy newServiceCluster)
         (setActiveCluster (JS.to_string newServiceCluster)) ;;
       do s <- get;
       let cluster := activeCluster s in
       ret (JS.or_else (Flags.target flags)
              (Some (getDefaultTargetName cluster)),
            @None Target.t, Some cluster)
     else
       let foundTarget := getTargetWithName (Flags.target flags) in
       match foundTarget with
       | Some ft => ret (Some (targetName ft), Some (target ft), None)
       | None => ret (None, None, None)
       end);
  let '(targetName, target, cluster) := resolved in
  emit EnsureAuth ;;
  await (auth_reply w) ;;
  definition_load_call flags ;;
  definition_load_resume (load_reply w) ;;
  (* temporary ugly solution *)
  emit InjectEnvironment ;;
  do s <- get;
  let cluster :=
    if JS.truthy cluster then JS.to_string cluster
    else match target with
         | Some t => Target.cluster t
         | None => activeCluster s
         end in
  let isLocal := negb (isSharedCluster cluster) in
  do project <-
    match target with
    | None =>
        (* if a specific service has been provided, check for its
           existence *)
        match target with
        | Some t => out_error (ServiceDoesntExistError t)
        | None => ret tt
        end ;;
        let region := getRegionFromCluster cluster in
        (* otherwise create a new project *)
        do newProject <-
          createProject isLocal cluster newServiceName alias region
            (create_reply w);
        let projectId := newProject in
        (* add environment *)
        setLocalTarget targetName (cluster ++ "/" ++ projectId)%string ;;
        do s <- get;
        when (negb (JS.truthy (env_default s)))
          (setLocalDefaultTarget targetName) ;;
        emit SaveLocalRC ;;
        ret (projectId, true)
    | Some t => ret (Target.id t, false)
    end;
  let '(projectId, projectIsNew) := project in
  (* best guess for "project name" *)
  let projectName := JS.or_else newServiceName targetName in
  deploy projectIsNew targetName projectId isLocal force projectName
    (push_reply w) ;;
  when watch
    (log watching_text ;;
     emit (Watch definitionDir
             {| cb_flags := flags; cb_projectIsNew := projectIsNew;
                cb_targetName := targetName; cb_projectId := projectId;
                cb_isLocal := isLocal; cb_force := force;
                cb_projectName := projectName |})).

(** *** The watch loop

    The listener registered on the watcher hands an [async] callback to
    [setImmediate].  The callback suspends at [await definition.load] and,
    inside [deploy], at [await client.push]; between two suspensions it
    runs to completion without interruption.  The loop is the state of
    the command, the calls made so far, and the callbacks at each
    suspension point: [immediates] are scheduled and have not started,
    [loading] wait for [definition.load], [pushing] are inside [deploy]
    and wait for [client.push]. *)

Record Sys : Type := {
  state : State;
  output : list Event;
  immediates : nat;
  loading : nat;
  pushing : nat
}.

(** The callback up to its first suspension; [true] when it suspends at
    [definition.load], [false] when it ends at once. *)
Definition callback_start (cb : Callback) : M bool :=
  do s <- get;
  if negb (deploying s) then
    definition_load_call (cb_flags cb) ;;
    ret true
  else ret false.

(** From the completion of [definition.load] to the suspension inside
    [deploy]. *)
Definition callback_loaded (cb : Callback) (reply : Res ProjectDefinition)
  : M unit :=
  definition_load_resume reply ;;
  deploy_call (cb_projectIsNew cb) (cb_targetName cb) (cb_projectId cb)
    (cb_isLocal cb) (cb_force cb) (cb_projectName cb).

(** From the completion of [client.push] to the end of the callback. *)
Definition callback_pushed (cb : Callback) (reply : Res MigrationResult)
  : M unit :=
  deploy_resume (cb_projectIsNew cb) (cb_targetName cb) (cb_projectId cb)
    (cb_isLocal cb) (cb_force cb) (cb_projectName cb) reply ;;
  log watching_text.

Inductive Action : Type :=
| FileChange                                   (* the watcher fires 'all' *)
| Immediate                                    (* a scheduled callback starts *)
| LoadSettled (reply : Res ProjectDefinition)  (* a definition.load settles *)
| PushSettled (reply : Res MigrationResult).   (* a client.push settles *)

(** One turn of the event loop; [None] when the action is not enabled. *)
Definition exec (cb : Callback) (a : Action) (y : Sys) : option Sys :=
  match a with
  | FileChange =>
      Some {| state := state y; output := output y;
              immediates := S (immediates y);
              loading := loading y; pushing := pushing y |}
  | Immediate =>
      match immediates y with
      | O => None
      | S n =>
          match callback_start cb (state y) with
          | (r, s', evs) =>
              Some {| state := s'; output := (output y ++ evs)%list;
                      immediates := n;
                      loading := match r with
                                 | Ok true => S (loading y)
                                 | _ => loading y
                                 end;
                      pushing := pushing y |}
          end
      end
  | LoadSettled reply =>
      match loading y with
      | O => None
      | S n =>
          match callback_loaded cb reply (state y) with
          | (r, s', evs) =>
              Some {| state := s'; output := (output y ++ evs)%list;
                      immediates := immediates y;
                      loading := n;
                      pushing := match r with
                                 | Ok _ => S (pushing y)
                                 | Throw _ => pushing y
                                 end |}
          end
      end
  | PushSettled reply =>
      match pushing y with
      | O => None
      | S n =>
          match callback_pushed cb reply (state y) with
          | (_, s', evs) =>
              Some {| state := s'; output := (output y ++ evs)%list;
                      immediates := immediates y;
                      loading := loading y;
                      pushing := n |}
          end
      end
  end.

Fixpoint exec_all (cb : Callback) (acts : list Action) (y : Sys)
  : option Sys :=
  match acts with
  | [] => Some y
  | a :: acts' =>
      match exec cb a y with
      | Some y' => exec_all cb acts' y'
      | None => None
      end
  end.

(** The loop as [run] leaves it: no callback scheduled yet. *)
Definition watching (s : State) : Sys :=
  {| state := s; output := []; immediates := 0; loading := 0; pushing := 0 |}.


(** *** [isValidProjectName] *)

Definition project_name_re : JS.regex :=
  JS.Regex true [JS.upper] JS.dot.

Definition isValidProjectName (projectName : string) : bool :=
  JS.test project_name_re projectName.

(** ** Vocabulary of the properties *)

(** The remediation hint among the calls made. *)
Definition is_force_hint (ev : Event) : bool :=
  match ev with
  | Log text => String.eqb text force_hint
  | _ => false
  end.

Definition hint_count (evs : list Event) : nat :=
  List.length (List.filter is_force_hint evs).

Definition is_endpoint (projectId : string) (ev : Event) : bool :=
  match ev with
  | Log text => String.eqb text (endpoint_text projectId)
  | _ => false
  end.

Definition is_create (ev : Event) : bool :=
  match ev with
  | ClientCreateProject _ _ _ _ => true
  | _ => false
  end.

Definition is_load (ev : Event) : bool :=
  match ev with
  | DefinitionLoad _ => true
  | _ => false
  end.

Definition is_push (ev : Event) : bool :=
  match ev with
  | ClientPush _ _ _ _ => true
  | _ => false
  end.

(** An error of the migration result is a destructive-change rejection
    when its description contains the marker. *)
Definition destructive (e : MigrationError) : bool :=
  JS.includes "destructive changes" (description e).

(** The project file format as the specification words it: a line
    [# project: <id>] whose id is a non-empty run of lowercase letters and
    digits.  A file without such a line has the id line absent or
    malformed. *)
Fixpoint split_lines (s : string) : list string :=
  match s with
  | EmptyString => [EmptyString]
  | String c s' =>
      if Ascii.eqb c "010" then EmptyString :: split_lines s'
      else match split_lines s' with
           | l :: ls => String c l :: ls
           | [] => [String c EmptyString]
           end
  end.

Fixpoint string_forallb (p : ascii -> bool) (s : string) : bool :=
  match s with
  | EmptyString => true
  | String c s' => p c && string_forallb p s'
  end.

Definition spec_id_line (l : string) : bool :=
  JS.startsWith "# project: " l
  && (let ident := JS.drop 11 l in
      negb (String.eqb ident "") && string_forallb JS.lower_alnum ident).

Definition spec_id_line_present (contents : string) : bool :=
  existsb spec_id_line (split_lines contents).


(** Kinds of calls, to count and to exclude. *)
Definition is_stop (ev : Event) : bool :=
  match ev with
  | ActionStop => true
  | _ => false
  end.

Definition is_definition_set (ev : Event) : bool :=
  match ev with
  | DefinitionSet _ => true
  | _ => false
  end.

Definition is_local_write (ev : Event) : bool :=
  match ev with
  | SetLocalTarget _ _ | SetLocalDefaultTarget _ | SaveLocalRC => true
  | _ => false
  end.

Definition is_set_default (ev : Event) : bool :=
  match ev with
  | SetLocalDefaultTarget _ => true
  | _ => false
  end.

Definition is_watch (ev : Event) : bool :=
  match ev with
  | Watch _ _ => true
  | _ => false
  end.

Definition count (p : Event -> bool) (evs : list Event) : nat :=
  List.length (List.filter p evs).

(** Data to run the development on. *)
Definition sample_flags : Flags.t :=
  {| Flags.target := Some "prod"; Flags.force := false; Flags.watch := true;
     Flags.new_service := None; Flags.new_service_cluster := None;
     Flags.alias := None |}.

Definition sample_callback : Callback :=
  {| cb_flags := sample_flags; cb_projectIsNew := false;
     cb_targetName := Some "prod"; cb_projectId := "cj1";
     cb_isLocal := false; cb_force := false;
     cb_projectName := Some "prod" |}.

Definition sample_state : State :=
  {| deploying := false; definition := Some emptyDefinition;
     activeCluster := "shared-eu-west-1"; env_default := None |}.


(** What a deploy calls after the push: the reporting sink and
    [definition.set]. *)
Definition is_report (ev : Event) : bool :=
  match ev with
  | Log _ | ActionStop | PrintMessages _ | PrintErrors _ | DefinitionSet _ =>
      true
  | _ => false
  end.

(** * Properties *)

(** ** String primitives *)

Lemma startsWith_app (p r : string) : JS.startsWith p (p ++ r) = true.
Proof.
  induction p as [|a p IH]; simpl; [reflexivity|].
  rewrite Ascii.eqb_refl. exact IH.
Qed.

Lemma startsWith_split (p s : string) :
  JS.startsWith p s = true -> exists r, s = (p ++ r)%string.
Proof.
  revert s. induction p as [|a p IH]; intros s H.
  - exists s. reflexivity.
  - destruct s as [|b s]; simpl in H; [discriminate|].
    apply andb_true_iff in H as [Hab Hps].
    apply Ascii.eqb_eq in Hab. subst b.
    destruct (IH s Hps) as [r ->]. exists r. reflexivity.
Qed.

Lemma indexOf_from_head (p s : string) (i : Z) :
  JS.startsWith p s = true -> JS.indexOf_from p s i = i.
Proof.
  intros H. destruct s; simpl; rewrite H; reflexivity.
Qed.

Lemma indexOf_from_cons (p : string) (c : ascii) (s : string) (i : Z) :
  JS.indexOf_from p (String c s) i
  = if JS.startsWith p (String c s) then i else JS.indexOf_from p s (i + 1).
Proof. reflexivity. Qed.

(** [indexOf_from] answers [-1] or an index not below its start. *)
Lemma indexOf_from_range (p s : string) (i : Z) :
  0 <= i -> JS.indexOf_from p s i = -1 \/ i <= JS.indexOf_from p s i.
Proof.
  revert i. induction s as [|c s IH]; intros i Hi; simpl.
  - destruct (JS.startsWith p ""); [right; lia | left; reflexivity].
  - destruct (JS.startsWith p (String c s)); [right; lia|].
    destruct (IH (i + 1)) as [H|H]; [lia | left; exact H | right; lia].
Qed.

(** Whether [indexOf_from] finds an occurrence does not depend on the
    index it starts counting from. *)
Lemma indexOf_from_none (p s : string) (i j : Z) :
  0 <= i -> 0 <= j ->
  JS.indexOf_from p s i = -1 -> JS.indexOf_from p s j = -1.
Proof.
  revert i j. induction s as [|c s IH]; intros i j Hi Hj; simpl.
  - destruct (JS.startsWith p ""); [lia | reflexivity].
  - destruct (JS.startsWith p (String c s)); [lia|].
    apply IH; lia.
Qed.

(** [includes] holds exactly of the strings that contain the pattern. *)
Lemma includes_occurs (p s : string) :
  JS.includes p s = true <-> exists pre post, s = (pre ++ p ++ post)%string.
Proof.
  unfold JS.includes, JS.indexOf. split.
  - intros H. apply Z.leb_le in H.
    assert (Hne : JS.indexOf_from p s 0 <> -1) by lia. clear H.
    induction s as [|c s IH]; simpl in Hne.
    + destruct (JS.startsWith p "") eqn:E; [|congruence].
      apply startsWith_split in E as [r Hr]. exists ""%string, r. exact Hr.
    + destruct (JS.startsWith p (String c s)) eqn:E.
      * apply startsWith_split in E as [r Hr]. exists ""%string, r. exact Hr.
      * destruct IH as (pre & post & Hs).
        { intros H0. apply Hne.
          apply (indexOf_from_none p s 0 1); [lia | lia | exact H0]. }
        exists (String c pre), post. simpl. rewrite Hs. reflexivity.
  - intros (pre & post & ->). apply Z.leb_le.
    assert (H : forall i, 0 <= i ->
              i <= JS.indexOf_from p (pre ++ p ++ post) i).
    { induction pre as [|c pre IH]; intros i Hi.
      - change ("" ++ p ++ post)%string with (p ++ post)%string.
        rewrite (indexOf_from_head p (p ++ post) i (startsWith_app p post)).
        lia.
      - simpl. destruct (JS.startsWith p _); [lia|].
        specialize (IH (i + 1)). lia. }
    apply H. lia.
Qed.

(** A literal matches at the head exactly when the string starts with
    it. *)
Lemma match_atoms_lit (p s : string) :
  JS.match_atoms (JS.lit p) s
  = if JS.startsWith p s
    then Some (p, JS.drop (String.length p) s)
    else None.
Proof.
  revert s. induction p as [|a p IH]; intros s.
  - destruct s; reflexivity.
  - destruct s as [|b s]; [reflexivity|].
    change (JS.lit (String a p)) with (Ascii.eqb a :: JS.lit p).
    simpl. destruct (Ascii.eqb_spec a b) as [->|_]; [|reflexivity].
    rewrite IH. destruct (JS.startsWith p s); reflexivity.
Qed.

(** An unanchored search for a literal followed by a starred class fails
    exactly when the literal does not occur. *)
Lemma search_lit_none (p : string) (cls : ascii -> bool) (s : string) :
  JS.includes p s = false ->
  JS.search (JS.Regex false (JS.lit p) cls) s = None.
Proof.
  unfold JS.includes, JS.indexOf. intros H. apply Z.leb_gt in H.
  assert (Hm : JS.indexOf_from p s 0 = -1).
  { destruct (indexOf_from_range p s 0); lia. }
  clear H. induction s as [|c s IH]; simpl in *.
  - unfold JS.match_here. simpl. rewrite match_atoms_lit.
    destruct (JS.startsWith p ""); [lia | reflexivity].
  - unfold JS.match_here. simpl JS.atoms. rewrite match_atoms_lit.
    destruct (JS.startsWith p (String c s)); [lia|].
    apply IH. apply (indexOf_from_none p s 1 0); [lia | lia | exact Hm].
Qed.

Lemma search_lit_some (p : string) (cls : ascii -> bool) (s : string) :
  JS.includes p s = true ->
  exists whole g, JS.search (JS.Regex false (JS.lit p) cls) s = Some [whole; g].
Proof.
  unfold JS.includes, JS.indexOf. intros H. apply Z.leb_le in H.
  assert (Hm : JS.indexOf_from p s 0 <> -1) by lia.
  clear H. induction s as [|c s IH]; simpl in *.
  - unfold JS.match_here. simpl. rewrite match_atoms_lit.
    destruct (JS.startsWith p ""); [eauto | congruence].
  - unfold JS.match_here. simpl JS.atoms. rewrite match_atoms_lit.
    destruct (JS.startsWith p (String c s)); [eauto|].
    apply IH. intros H0. apply Hm.
    apply (indexOf_from_none p s 0 1); [lia | lia | exact H0].
Qed.


(** What [indexOf_from] answers when it finds the pattern: the offset of
    the first position at which the string starts with it. *)
Lemma indexOf_from_found (p s : string) (i : Z) :
  JS.indexOf_from p s i <> -1 ->
  exists n : nat,
    JS.indexOf_from p s i = i + Z.of_nat n
    /\ (n <= String.length s)%nat
    /\ JS.startsWith p (JS.drop n s) = true
    /\ forall k : nat, (k < n)%nat -> JS.startsWith p (JS.drop k s) = false.
Proof.
  revert i. induction s as [|c s IH]; intros i H; simpl in H.
  - destruct (JS.startsWith p "") eqn:E; [|congruence].
    exists 0%nat. simpl. rewrite E. repeat split; [lia | lia |].
    intros k Hk. lia.
  - destruct (JS.startsWith p (String c s)) eqn:E.
    + exists 0%nat. simpl. rewrite E. repeat split; [lia | lia |].
      intros k Hk. lia.
    + destruct (IH (i + 1) H) as (n & Hn & Hle & Hs & Hfirst).
      exists (S n). simpl. rewrite E. repeat split; [lia | lia | exact Hs |].
      intros [|k] Hk; [exact E | apply Hfirst; lia].
Qed.

Lemma length_drop (n : nat) (s : string) :
  String.length (JS.drop n s) = (String.length s - n)%nat.
Proof.
  revert s. induction n as [|n IH]; intros [|c s]; simpl; auto with arith.
Qed.

Lemma take_all (n : nat) (s : string) :
  (String.length s <= n)%nat -> JS.take n s = s.
Proof.
  revert s. induction n as [|n IH]; intros [|c s] H; simpl in *;
    try reflexivity; try lia.
  rewrite IH; [reflexivity | lia].
Qed.

Lemma drop_app (a b : string) :
  JS.drop (String.length a) (a ++ b) = b.
Proof.
  induction a as [|c a IH]; simpl; [destruct b; reflexivity | exact IH].
Qed.

(** [substring] from an index inside the string to its end drops the
    characters before the index. *)
Lemma substring_to_end (s : string) (n : nat) :
  (n <= String.length s)%nat ->
  JS.substring s (Z.of_nat n) (JS.length s) = JS.drop n s.
Proof.
  intros H. unfold JS.substring, JS.clamp, JS.length.
  replace (Z.min (Z.max 0 (Z.min (Z.of_nat n) (Z.of_nat (String.length s))))
             (Z.max 0 (Z.min (Z.of_nat (String.length s))
                         (Z.of_nat (String.length s)))))
    with (Z.of_nat n) by lia.
  rewrite Nat2Z.id. apply take_all. rewrite length_drop. lia.
Qed.

(** A negative start is clamped to 0: the whole string comes back. *)
Lemma substring_minus_one (s : string) :
  JS.substring s (-1) (JS.length s) = s.
Proof.
  unfold JS.substring, JS.clamp, JS.length.
  replace (Z.min (Z.max 0 (Z.min (-1) (Z.of_nat (String.length s))))
             (Z.max 0 (Z.min (Z.of_nat (String.length s))
                         (Z.of_nat (String.length s)))))
    with 0 by lia.
  simpl JS.drop. apply take_all. lia.
Qed.

(** ** src/utils/file.ts *)

(** When the contents hold the token [type], [readDataModelFromProjectFile]
    returns the contents from its first occurrence to the end. *)
Lemma readDataModel_from_first_type (resolver : Resolver)
    (path contents : string) :
  resolver !! path = Some contents ->
  JS.includes "type" contents = true ->
  exists n : nat,
    readDataModelFromProjectFile resolver path = Ok (JS.drop n contents)
    /\ JS.startsWith "type" (JS.drop n contents) = true
    /\ forall k : nat, (k < n)%nat ->
         JS.startsWith "type" (JS.drop k contents) = false.
Proof.
  intros Hread Hinc. unfold JS.includes, JS.indexOf in Hinc.
  apply Z.leb_le in Hinc.
  destruct (indexOf_from_found "type" contents 0) as (n & Hn & Hle & Hs & Hf);
    [lia|].
  exists n. split; [|split; assumption].
  unfold readDataModelFromProjectFile, read. rewrite Hread. simpl.
  unfold JS.indexOf. rewrite Hn. rewrite Z.add_0_l.
  rewrite substring_to_end by exact Hle. reflexivity.
Qed.

(** Without a [type] token, [indexOf] answers -1, [substring] clamps it
    to 0, and the whole contents come back. *)
Lemma readDataModel_without_type (resolver : Resolver)
    (path contents : string) :
  resolver !! path = Some contents ->
  JS.includes "type" contents = false ->
  readDataModelFromProjectFile resolver path = Ok contents.
Proof.
  intros Hread Hinc. unfold JS.includes in Hinc. apply Z.leb_gt in Hinc.
  assert (Hm : JS.indexOf "type" contents = -1).
  { unfold JS.indexOf in *.
    destruct (indexOf_from_range "type" contents 0); lia. }
  unfold readDataModelFromProjectFile, read. rewrite Hread. simpl.
  rewrite Hm, substring_minus_one. reflexivity.
Qed.

(** C6, amended. [readDataModelFromProjectFile] returns the contents from
    the first occurrence of the token [type] to the end of the file, and
    the whole contents when they hold no [type] token. *)
Theorem readDataModel_from_first_type_or_whole (resolver : Resolver)
    (path contents : string) :
  resolver !! path = Some contents ->
  if JS.includes "type" contents
  then exists n : nat,
         readDataModelFromProjectFile resolver path
         = Ok (JS.drop n contents)
         /\ JS.startsWith "type" (JS.drop n contents) = true
         /\ forall k : nat, (k < n)%nat ->
              JS.startsWith "type" (JS.drop k contents) = false
  else readDataModelFromProjectFile resolver path = Ok contents.
Proof.
  intros Hread. destruct (JS.includes "type" contents) eqn:Hinc.
  - exact (readDataModel_from_first_type resolver path contents Hread Hinc).
  - exact (readDataModel_without_type resolver path contents Hread Hinc).
Qed.


(** [readProjectIdFromProjectFile] answers a string, possibly empty, as
    soon as the text [# project: ] occurs in the contents, whatever
    follows it. *)
Lemma readProjectId_defined_with_id_text (resolver : Resolver)
    (path contents : string) :
  resolver !! path = Some contents ->
  JS.includes "# project: " contents = true ->
  exists ident, readProjectIdFromProjectFile resolver path = Ok (Some ident).
Proof.
  intros Hread Hinc.
  unfold readProjectIdFromProjectFile, read. rewrite Hread. simpl.
  unfold JS.match_, project_re. simpl.
  destruct (search_lit_some "# project: " JS.lower_alnum contents Hinc)
    as (whole & g & ->).
  exists g. reflexivity.
Qed.

(** C8, amended. For every project file whose contents do not hold the
    text [# project: ], [readProjectIdFromProjectFile] returns undefined
    without throwing, and so does [readProjectInfoFromProjectFile]. *)
Theorem readProjectId_undefined_without_id_text (resolver : Resolver)
    (path contents : string) :
  resolver !! path = Some contents ->
  JS.includes "# project: " contents = false ->
  readProjectIdFromProjectFile resolver path = Ok None
  /\ readProjectInfoFromProjectFile resolver path = Ok None.
Proof.
  intros Hread Hinc.
  assert (Hid : readProjectIdFromProjectFile resolver path = Ok None).
  { unfold readProjectIdFromProjectFile, read. rewrite Hread. simpl.
    unfold JS.match_, project_re. simpl.
    rewrite (search_lit_none "# project: " JS.lower_alnum contents Hinc).
    reflexivity. }
  split; [exact Hid|].
  unfold readProjectInfoFromProjectFile. rewrite Hid. reflexivity.
Qed.

(** C10. [isValidProjectName] holds exactly of the strings whose first
    character is an uppercase letter between A and Z. *)
Theorem isValidProjectName_iff_first_upper (projectName : string) :
  isValidProjectName projectName = true
  <-> exists (c : ascii) (rest : string),
        projectName = String c rest
        /\ (nat_of_ascii "A" <= nat_of_ascii c <= nat_of_ascii "Z")%nat.
Proof.
  unfold isValidProjectName, JS.test, JS.match_, project_name_re,
    JS.match_here.
  simpl JS.anchored. simpl JS.atoms. split.
  - destruct projectName as [|c rest]; simpl; [discriminate|].
    destruct (JS.upper c) eqn:E; [|discriminate].
    intros _. exists c, rest. split; [reflexivity|].
    unfold JS.upper, JS.in_range in E.
    apply andb_true_iff in E as [H1 H2].
    apply Nat.leb_le in H1. apply Nat.leb_le in H2. split; assumption.
  - intros (c & rest & -> & H1 & H2). simpl.
    assert (E : JS.upper c = true).
    { unfold JS.upper, JS.in_range. apply andb_true_iff.
      split; apply Nat.leb_le; assumption. }
    rewrite E. reflexivity.
Qed.

(** The empty name and names that start with a lowercase letter, a digit
    or a symbol are refused. *)
Example isValidProjectName_samples :
  isValidProjectName "" = false
  /\ isValidProjectName "myService" = false
  /\ isValidProjectName "1Service" = false
  /\ isValidProjectName "_Service" = false
  /\ isValidProjectName "MyService" = true
  /\ isValidProjectName "Z" = true.
Proof. repeat split; reflexivity. Qed.

(** The token [type] does not straddle the end of a string that a line
    feed follows. *)
Lemma startsWith_type_before_newline (v rest : string) :
  JS.startsWith "type" (v ++ String "010" rest) = JS.startsWith "type" v.
Proof.
  destruct v as [|c1 [|c2 [|c3 [|c4 v]]]]; simpl;
    rewrite ?andb_false_r; reflexivity.
Qed.

Lemma indexOf_type_skip (v rest : string) (i : Z) :
  0 <= i ->
  JS.includes "type" v = false ->
  JS.indexOf_from "type" (v ++ String "010" rest) i
  = JS.indexOf_from "type" (String "010" rest) (i + Z.of_nat (String.length v)).
Proof.
  unfold JS.includes, JS.indexOf. intros Hi H. apply Z.leb_gt in H.
  assert (Hm : JS.indexOf_from "type" v 0 = -1).
  { destruct (indexOf_from_range "type" v 0); lia. }
  clear H. revert i Hi. induction v as [|c v IH]; intros i Hi.
  - simpl String.length. rewrite Z.add_0_r. reflexivity.
  - change (String c v ++ String "010" rest)%string
      with (String c (v ++ String "010" rest)).
    rewrite indexOf_from_cons.
    change (String c (v ++ String "010" rest))
      with (String c v ++ String "010" rest)%string.
    rewrite startsWith_type_before_newline.
    rewrite indexOf_from_cons in Hm.
    destruct (JS.startsWith "type" (String c v)); [lia|].
    rewrite IH.
    + f_equal. simpl String.length. lia.
    + apply (indexOf_from_none "type" v 1 0); [lia | lia | exact Hm].
    + lia.
Qed.


Lemma drop_skip (v rest : string) (n : nat) :
  JS.drop (String.length v + n) (v ++ rest) = JS.drop n rest.
Proof.
  induction v as [|c v IH]; simpl; [reflexivity | exact IH].
Qed.

Lemma length_app (a b : string) :
  String.length (a ++ b) = (String.length a + String.length b)%nat.
Proof.
  induction a as [|c a IH]; simpl; [reflexivity | rewrite IH; reflexivity].
Qed.

(** The schema read back from the contents written for the project
    [abc123] with schema [type User { id: ID! }]. *)
Lemma round_trip_data_model (v : string) :
  JS.includes "type" v = false ->
  let contents :=
    projectInfoToContents
      {| projectId := "abc123"; version := Some v;
         schema := "type User { id: ID! }" |} in
  JS.substring contents (JS.indexOf "type" contents) (JS.length contents)
  = "type User { id: ID! }".
Proof.
  intros Hv contents.
  set (rest := String "010" (String "010" "type User { id: ID! }")).
  assert (Hidx : JS.indexOf "type" contents
                 = Z.of_nat (29 + (String.length v + 2))).
  { unfold JS.indexOf.
    change (JS.indexOf_from "type" contents 0)
      with (JS.indexOf_from "type" (v ++ rest) 29).
    unfold rest. rewrite indexOf_type_skip by (lia || exact Hv).
    change (JS.indexOf_from "type"
              (String "010" (String "010" "type User { id: ID! }"))
              (29 + Z.of_nat (String.length v)))
      with (29 + Z.of_nat (String.length v) + 1 + 1).
    lia. }
  rewrite Hidx. rewrite substring_to_end.
  - change (JS.drop (29 + (String.length v + 2)) contents)
      with (JS.drop (String.length v + 2) (v ++ rest)).
    rewrite drop_skip. reflexivity.
  - change (String.length contents)
      with (29 + String.length (v ++ rest))%nat.
    rewrite length_app. unfold rest. simpl String.length. lia.
Qed.

(** Writing the project file of the project with id [abc123] and
    schema [type User { id: ID! }], whatever its version as long as the
    version does not hold the token [type], and reading the written path
    back gives the project id [abc123] and the schema, which begins with
    [type User]. *)
Theorem project_file_round_trip (resolver : Resolver) (path : option string)
    (v : string) :
  JS.includes "type" v = false ->
  let info := {| projectId := "abc123"; version := Some v;
                 schema := "type User { id: ID! }" |} in
  exists info',
    readProjectInfoFromProjectFile (writeProjectFile info resolver path)
      (JS.to_string (projectFilePath path)) = Ok (Some info')
    /\ projectId info' = "abc123"
    /\ schema info' = "type User { id: ID! }"
    /\ JS.startsWith "type User" (schema info') = true.
Proof.
  intros Hv info.
  unfold readProjectInfoFromProjectFile, readProjectIdFromProjectFile,
    readVersionFromProjectFile, readDataModelFromProjectFile,
    writeProjectFile, read, write.
  rewrite lookup_insert_eq.
  cbv beta iota delta [res_bind].
  assert (Hid : group1 (JS.match_ project_re (projectInfoToContents info))
                = Some "abc123") by reflexivity.
  rewrite Hid.
  change (negb (JS.truthy (Some "abc123"))) with false.
  cbv beta iota.
  pose proof (round_trip_data_model v Hv) as Hdm. cbv zeta in Hdm.
  fold info in Hdm. rewrite Hdm.
  eexists. split; [reflexivity|].
  repeat split; reflexivity.
Qed.


(** ** [Deploy.deploy] *)

(** Unfolds the command monad, leaving texts and string tests folded. *)
Ltac step_cmd :=
  cbv beta iota zeta delta
    [deploy deploy_call deploy_resume bind ret emit log get put throw
     await defined when set_deploying set_definition definition_set
     definition_load_call definition_load_resume absent_or_empty
     callback_start callback_loaded callback_pushed
     deploying definition activeCluster env_default
     List.length Nat.eqb Nat.ltb Nat.leb nth_error andb negb app].

Ltac step_cmd_in H :=
  cbv beta iota zeta delta
    [deploy deploy_call deploy_resume bind ret emit log get put throw
     await defined when set_deploying set_definition definition_set
     definition_load_call definition_load_resume absent_or_empty
     callback_start callback_loaded callback_pushed
     deploying definition activeCluster env_default
     List.length Nat.eqb Nat.ltb Nat.leb nth_error andb negb app] in H.

(** Up to the suspension at [client.push], a deploy raises the flag and
    makes two calls. *)
Lemma deploy_call_runs (projectIsNew : bool) (targetName : option string)
    (projectId : string) (isLocal force : bool) (projectName : option string)
    (s : State) :
  exists start,
    deploy_call projectIsNew targetName projectId isLocal force projectName s
    = (Ok tt,
       {| deploying := true; definition := definition s;
          activeCluster := activeCluster s; env_default := env_default s |},
       [ActionStart start; ClientPush projectId force false (definition s)]).
Proof. eexists. reflexivity. Qed.

(** C1. When [client.push] rejects, [deploy] throws at the [await]: the
    [deploying] flag, raised before the call, is still set, and the
    endpoint is not printed.  The specification expects the flag cleared
    and the endpoint printed on this path too. *)
Theorem deploy_push_rejected_keeps_flag (projectIsNew : bool)
    (targetName : option string) (projectId : string) (isLocal force : bool)
    (projectName : option string) (e : exn) (s : State) :
  exists s' evs,
    deploy projectIsNew targetName projectId isLocal force projectName
      (Throw e) s = (Throw e, s', evs)
    /\ deploying s' = true
    /\ existsb (is_endpoint projectId) evs = false.
Proof.
  eexists. eexists. split; [reflexivity|]. split; reflexivity.
Qed.

(** C4. When the migration result has neither messages nor errors (each
    list empty or absent), [deploy] stops the progress indicator, logs
    the up-to-date message and the endpoint and nothing else, clears the
    flag, and leaves the definition as it was: [definition.set] is not
    called. *)
Theorem deploy_up_to_date (projectIsNew : bool)
    (targetName : option string) (projectId : string) (isLocal force : bool)
    (projectName : option string) (r : MigrationResult) (s : State) :
  (migrationMessages r = None \/ migrationMessages r = Some []) ->
  (errors r = None \/ errors r = Some []) ->
  exists start,
    deploy projectIsNew targetName projectId isLocal force projectName
      (Ok r) s
    = (Ok tt,
       {| deploying := false; definition := definition s;
          activeCluster := activeCluster s; env_default := env_default s |},
       [ActionStart start;
        ClientPush projectId force false (definition s);
        ActionStop;
        Log "Everything up-to-date.";
        Log ("Endpoint: " ++ simpleEndpoint projectId)%string]).
Proof.
  intros Hm He. eexists. step_cmd.
  destruct Hm as [-> | ->], He as [-> | ->]; reflexivity.
Qed.


(** The other texts [deploy] logs differ from the remediation hint. *)
Lemma created_text_not_hint : String.eqb created_text force_hint = false.
Proof. reflexivity. Qed.

Lemma endpoint_text_not_hint (projectId : string) :
  String.eqb (endpoint_text projectId) force_hint = false.
Proof. reflexivity. Qed.

Lemma up_to_date_text_not_hint : String.eqb up_to_date_text force_hint = false.
Proof. reflexivity. Qed.

Lemma empty_text_not_hint : String.eqb "" force_hint = false.
Proof. reflexivity. Qed.

Lemma issues_text_not_hint : String.eqb issues_text force_hint = false.
Proof.
  unfold issues_text, chalk_rgb_244_157_65, sgr.
  destruct colorEnabled; reflexivity.
Qed.

Lemma error_text_not_hint :
  String.eqb (chalk_red "Error!" ++ " Here are the potential changes:")
    force_hint = false.
Proof.
  unfold chalk_red, sgr. destruct colorEnabled; reflexivity.
Qed.

Lemma success_text_not_hint :
  String.eqb (chalk_green "Success!" ++ " Here is what changed:")
    force_hint = false.
Proof.
  unfold chalk_green, sgr. destruct colorEnabled; reflexivity.
Qed.

Ltac count_hints :=
  cbv beta iota zeta delta [hint_count List.filter is_force_hint];
  rewrite ?created_text_not_hint, ?endpoint_text_not_hint,
    ?up_to_date_text_not_hint, ?empty_text_not_hint, ?issues_text_not_hint,
    ?error_text_not_hint, ?success_text_not_hint, ?String.eqb_refl;
  reflexivity.

(** C3, amended. When the migration result has its messages list present
    and its FIRST error's description contains the destructive-change
    marker, [deploy] logs the remediation hint exactly once. *)
Theorem deploy_first_error_destructive_hint_once (projectIsNew : bool)
    (targetName : option string) (projectId : string) (isLocal force : bool)
    (projectName : option string) (r : MigrationResult) (s : State)
    (messages : list MigrationMessage) (e : MigrationError)
    (es : list MigrationError) :
  migrationMessages r = Some messages ->
  errors r = Some (e :: es) ->
  destructive e = true ->
  exists s' evs,
    deploy projectIsNew targetName projectId isLocal force projectName
      (Ok r) s = (Ok tt, s', evs)
    /\ hint_count evs = 1%nat.
Proof.
  intros Hm He Hd. unfold destructive in Hd.
  destruct projectIsNew, messages as [|m messages];
    (eexists; eexists; split;
     [ step_cmd; rewrite Hm, He; step_cmd; rewrite Hd; reflexivity
     | count_hints ]).
Qed.

(** The hint depends on the first error alone: when its description
    lacks the marker, no hint is logged, whatever the other errors say. *)
Lemma deploy_first_error_harmless_no_hint (projectIsNew : bool)
    (targetName : option string) (projectId : string) (isLocal force : bool)
    (projectName : option string) (r : MigrationResult) (s : State)
    (messages : list MigrationMessage) (e : MigrationError)
    (es : list MigrationError) :
  migrationMessages r = Some messages ->
  errors r = Some (e :: es) ->
  destructive e = false ->
  exists s' evs,
    deploy projectIsNew targetName projectId isLocal force projectName
      (Ok r) s = (Ok tt, s', evs)
    /\ hint_count evs = 0%nat.
Proof.
  intros Hm He Hd. unfold destructive in Hd.
  destruct projectIsNew, messages as [|m messages];
    (eexists; eexists; split;
     [ step_cmd; rewrite Hm, He; step_cmd; rewrite Hd; reflexivity
     | count_hints ]).
Qed.

(** When the migration result has a non-empty messages list and its
    errors list is present (possibly empty), [deploy] completes
    and the definition in memory is the [projectDefinition] the server
    returned. *)
Theorem deploy_with_messages_sets_definition (projectIsNew : bool)
    (targetName : option string) (projectId : string) (isLocal force : bool)
    (projectName : option string) (r : MigrationResult) (s : State)
    (m : MigrationMessage) (ms : list MigrationMessage)
    (es : list MigrationError) :
  migrationMessages r = Some (m :: ms) ->
  errors r = Some es ->
  exists s' evs,
    deploy projectIsNew targetName projectId isLocal force projectName
      (Ok r) s = (Ok tt, s', evs)
    /\ definition s' = Some (projectDefinition r).
Proof.
  intros Hm He.
  destruct projectIsNew, es as [|e es];
    try destruct (JS.includes "destructive changes" (description e)) eqn:Hd;
    (eexists; eexists; split;
     [ step_cmd; rewrite Hm, He; step_cmd; rewrite ?Hd; reflexivity
     | reflexivity ]).
Qed.


(** On every path on which [deploy] returns, the flag is cleared and the
    endpoint is among the texts logged. *)
Lemma deploy_returns_clears_flag (projectIsNew : bool)
    (targetName : option string) (projectId : string) (isLocal force : bool)
    (projectName : option string) (reply : Res MigrationResult)
    (s s' : State) (evs : list Event) :
  deploy projectIsNew targetName projectId isLocal force projectName reply s
  = (Ok tt, s', evs) ->
  deploying s' = false /\ existsb (is_endpoint projectId) evs = true.
Proof.
  intros H. destruct reply as [r|e]; [|discriminate H].
  destruct (migrationMessages r) as [[|m ms]|] eqn:Hm,
           (errors r) as [[|e es]|] eqn:He, projectIsNew;
    step_cmd_in H; rewrite ?Hm, ?He in H; step_cmd_in H;
    try destruct (JS.includes "destructive changes" (description e));
    try discriminate H;
    injection H as Hs Hevs; subst s' evs;
    (split; [reflexivity|]);
    cbv beta iota delta [existsb is_endpoint];
    rewrite String.eqb_refl, ?orb_true_r; reflexivity.
Qed.

(** The reporting path throws too: with errors to report and no messages
    list, the length of the absent list is read, and the flag stays set. *)
Lemma deploy_report_throws_keeps_flag (projectIsNew : bool)
    (targetName : option string) (projectId : string) (isLocal force : bool)
    (projectName : option string) (r : MigrationResult) (s : State)
    (e : MigrationError) (es : list MigrationError) :
  migrationMessages r = None ->
  errors r = Some (e :: es) ->
  exists msg s' evs,
    deploy projectIsNew targetName projectId isLocal force projectName
      (Ok r) s = (Throw (TypeError msg), s', evs)
    /\ deploying s' = true
    /\ existsb (is_endpoint projectId) evs = false.
Proof.
  intros Hm He. eexists. eexists. eexists. split.
  - step_cmd. rewrite Hm, He. step_cmd. reflexivity.
  - split; reflexivity.
Qed.

(** ** The watch loop *)

(** C2, amended. A scheduled watch callback that starts while the
    [deploying] flag is set does nothing: it neither reloads the
    definition nor deploys, the state and the calls made are unchanged,
    and the callback is gone from the queue, not kept for later. *)
Theorem watch_callback_dropped_while_deploying (cb : Callback) (y : Sys)
    (n : nat) :
  deploying (state y) = true ->
  immediates y = S n ->
  exec cb Immediate y
  = Some {| state := state y; output := output y; immediates := n;
            loading := loading y; pushing := pushing y |}.
Proof.
  intros Hd Hi. unfold exec. rewrite Hi.
  unfold callback_start, bind, get. rewrite Hd.
  cbv beta iota delta [negb ret]. rewrite !app_nil_r. reflexivity.
Qed.

(** With the flag down, the callback calls [definition.load] and suspends
    there; the flag is still down when it does. *)
Lemma watch_callback_starts_when_idle (cb : Callback) (y : Sys) (n : nat) :
  deploying (state y) = false ->
  immediates y = S n ->
  exec cb Immediate y
  = Some {| state := state y;
            output := (output y ++ [DefinitionLoad (cb_flags cb)])%list;
            immediates := n;
            loading := S (loading y); pushing := pushing y |}.
Proof.
  intros Hd Hi. unfold exec. rewrite Hi.
  unfold callback_start, bind, get. rewrite Hd.
  reflexivity.
Qed.

(** ** [Deploy.run] *)

(** With a migration result in hand, [deploy] throws nothing but the
    [TypeError] of a property read on an absent list. *)
Lemma deploy_result_throws_type_error (projectIsNew : bool)
    (targetName : option string) (projectId : string) (isLocal force : bool)
    (projectName : option string) (r : MigrationResult)
    (s s' : State) (evs : list Event) (e : exn) :
  deploy projectIsNew targetName projectId isLocal force projectName (Ok r) s
  = (Throw e, s', evs) ->
  exists msg, e = TypeError msg.
Proof.
  intros H.
  destruct (migrationMessages r) as [[|m ms]|] eqn:Hm,
           (errors r) as [[|e0 es]|] eqn:He, projectIsNew;
    step_cmd_in H; rewrite ?Hm, ?He in H; step_cmd_in H;
    try destruct (JS.includes "destructive changes" (description e0));
    try discriminate H;
    injection H as He' _ _; subst e; eexists; reflexivity.
Qed.

Ltac step_run :=
  change (JS.truthy None) with false;
  cbv -[deploy String.append chalk_bold JS.to_string JS.or_else JS.truthy
        watching_text existsb is_create
        Flags.watch Flags.force Flags.alias Flags.new_service].

(** C7. With a target reference on the command line that
    [getTargetWithName] does not resolve, and no new-service name, [run]
    does not report [ServiceDoesntExistError]: the existence check sits
    inside the branch taken when there is no target and tests the same
    variable, so it never fires, and [run] goes on to create a project
    through the remote client. *)
Theorem run_unresolved_target_creates_project (flags : Flags.t)
    (w : Replies) (s : State) (d : ProjectDefinition) (created : string)
    (mr : MigrationResult) :
  JS.truthy (Flags.target flags) = true ->
  JS.truthy (Flags.new_service flags) = false ->
  getTargetWithName (Flags.target flags) = None ->
  auth_reply w = Ok tt ->
  load_reply w = Ok d ->
  create_reply w = Ok created ->
  push_reply w = Ok mr ->
  exists r s' evs,
    run flags w s = (r, s', evs)
    /\ existsb is_create evs = true
    /\ forall t, r <> Throw (ServiceDoesntExistError t).
Proof.
  intros _ Hnew Hfound Hauth Hload Hcreate Hpush.
  unfold run. rewrite Hnew, Hfound, Hauth, Hload, Hcreate, Hpush.
  destruct s as [dpl def ac ed]. step_run.
  destruct (JS.truthy ed); step_run;
    match goal with
    | |- context [deploy ?a ?b ?c ?i ?f ?g ?h ?st] =>
        destruct (deploy a b c i f g h st) as [[r1 s1] evs1] eqn:Hdep
    end;
    (destruct r1 as [[]|e];
     [ destruct (Flags.watch flags) | ];
     eexists; eexists; eexists;
     (split; [reflexivity|]);
     (split; [reflexivity|]);
     intros t Ht; try discriminate Ht;
     injection Ht as ->;
     apply deploy_result_throws_type_error in Hdep as [msg Hmsg];
     discriminate Hmsg).
Qed.


(** * Further properties *)

(** ** String primitives, continued *)

Lemma take_drop (n : nat) (s : string) :
  s = (JS.take n s ++ JS.drop n s)%string.
Proof.
  revert s. induction n as [|n IH]; intros [|c s]; try reflexivity.
  change (String c s = String c (JS.take n s ++ JS.drop n s)%string).
  rewrite <- IH. reflexivity.
Qed.

Lemma length_take (n : nat) (s : string) :
  (n <= String.length s)%nat -> String.length (JS.take n s) = n.
Proof.
  revert s. induction n as [|n IH]; intros [|c s] H; simpl in *;
    try reflexivity; try lia.
  rewrite IH; [reflexivity | lia].
Qed.

(** [endsWith] holds exactly of the strings that end with the suffix. *)
Lemma endsWith_suffix (suffix s : string) :
  JS.endsWith suffix s = true <-> exists pre, s = (pre ++ suffix)%string.
Proof.
  unfold JS.endsWith, JS.length. split.
  - intros H. apply andb_true_iff in H as [Hle Heq].
    apply String.eqb_eq in Heq.
    exists (JS.take (Z.to_nat (Z.of_nat (String.length s)
                                - Z.of_nat (String.length suffix))) s).
    rewrite <- Heq at 2. apply take_drop.
  - intros [pre ->]. apply andb_true_iff. rewrite length_app. split.
    + apply Z.leb_le. lia.
    + replace (Z.to_nat (Z.of_nat (String.length pre + String.length suffix)
                         - Z.of_nat (String.length suffix)))
        with (String.length pre) by lia.
      rewrite drop_app. apply String.eqb_refl.
Qed.

Lemma span_forallb (cls : ascii -> bool) (s : string) :
  string_forallb cls (JS.span cls s) = true.
Proof.
  induction s as [|c s IH]; simpl; [reflexivity|].
  destruct (cls c) eqn:E; simpl; [rewrite E; exact IH | reflexivity].
Qed.

(** [span] is the longest run: what follows it is empty or starts outside
    the class. *)
Lemma span_rest (cls : ascii -> bool) (s : string) :
  exists rest,
    s = (JS.span cls s ++ rest)%string
    /\ (rest = ""%string
        \/ exists c r, rest = String c r /\ cls c = false).
Proof.
  induction s as [|c s IH].
  - exists ""%string. split; [reflexivity | left; reflexivity].
  - simpl. destruct (cls c) eqn:E.
    + destruct IH as (rest & Hs & Hrest). exists rest. split; [|exact Hrest].
      change (String c s = String c (JS.span cls s ++ rest)%string).
      rewrite <- Hs. reflexivity.
    + exists (String c s). split; [reflexivity|].
      right. exists c, s. split; [reflexivity | exact E].
Qed.

(** What an unanchored search for a literal followed by a starred class
    answers: the literal at its first occurrence, and after it the longest
    run of the class. *)
Lemma search_lit_found (p : string) (cls : ascii -> bool) (s : string) :
  JS.includes p s = true ->
  exists n : nat,
    (n <= String.length s)%nat
    /\ JS.startsWith p (JS.drop n s) = true
    /\ (forall k : nat, (k < n)%nat -> JS.startsWith p (JS.drop k s) = false)
    /\ JS.search (JS.Regex false (JS.lit p) cls) s
       = Some [(p ++ JS.span cls (JS.drop (String.length p) (JS.drop n s)))%string;
               JS.span cls (JS.drop (String.length p) (JS.drop n s))].
Proof.
  unfold JS.includes, JS.indexOf. intros H. apply Z.leb_le in H.
  assert (Hm : JS.indexOf_from p s 0 <> -1) by lia. clear H.
  induction s as [|c s IH].
  - simpl in Hm. destruct (JS.startsWith p "") eqn:E; [|congruence].
    exists 0%nat. split; [simpl; lia|]. split; [exact E|].
    split; [intros k Hk; lia|].
    simpl JS.search. unfold JS.match_here. simpl JS.atoms.
    rewrite match_atoms_lit, E. reflexivity.
  - rewrite indexOf_from_cons in Hm.
    destruct (JS.startsWith p (String c s)) eqn:E.
    + exists 0%nat. split; [simpl; lia|]. split; [exact E|].
      split; [intros k Hk; lia|].
      simpl JS.search. unfold JS.match_here. simpl JS.atoms.
      rewrite match_atoms_lit, E. reflexivity.
    + destruct IH as (n & Hle & Hs & Hfirst & Hsearch).
      { intros H0. apply Hm.
        apply (indexOf_from_none p s 0 (0 + 1)); [lia | lia | exact H0]. }
      exists (S n). split; [simpl; lia|]. split; [exact Hs|].
      split.
      * intros [|k] Hk; [exact E | apply Hfirst; lia].
      * simpl JS.search. unfold JS.match_here. simpl JS.atoms.
        rewrite match_atoms_lit, E. exact Hsearch.
Qed.

(** The same, in terms of the text alone. *)
Lemma match_lit_group (p : string) (cls : ascii -> bool) (s : string) :
  JS.includes p s = true ->
  exists pre g rest,
    s = (pre ++ p ++ g ++ rest)%string
    /\ (forall k : nat, (k < String.length pre)%nat ->
          JS.startsWith p (JS.drop k s) = false)
    /\ string_forallb cls g = true
    /\ (rest = ""%string \/ exists c r, rest = String c r /\ cls c = false)
    /\ group1 (JS.match_ (JS.Regex false (JS.lit p) cls) s) = Some g.
Proof.
  intros H.
  destruct (search_lit_found p cls s H) as (n & Hle & Hs & Hfirst & Hsearch).
  destruct (startsWith_split _ _ Hs) as [r Hr].
  assert (Hdrop : JS.drop (String.length p) (JS.drop n s) = r).
  { rewrite Hr. apply drop_app. }
  rewrite Hdrop in Hsearch.
  destruct (span_rest cls r) as (rest & Hrest & Hnext).
  exists (JS.take n s), (JS.span cls r), rest.
  split.
  - rewrite <- Hrest, <- Hr. apply take_drop.
  - split.
    + intros k Hk. apply Hfirst. rewrite length_take in Hk; assumption.
    + split; [apply span_forallb|]. split; [exact Hnext|].
      unfold JS.match_. simpl JS.anchored. rewrite Hsearch. reflexivity.
Qed.


(** ** src/utils/file.ts, continued *)

(** A project file path is valid exactly when it is a non-empty string
    that ends with the project file suffix; the missing path and the empty
    path are not. *)
Theorem isValidProjectFilePath_iff_suffix (path : option string) :
  isValidProjectFilePath path = true
  <-> exists p pre,
        path = Some p /\ p <> ""%string
        /\ p = (pre ++ projectFileSuffix)%string.
Proof.
  unfold isValidProjectFilePath. split.
  - destruct path as [p|]; simpl; [|discriminate].
    destruct (String.eqb_spec p ""); simpl; [discriminate|].
    intros H. apply endsWith_suffix in H as [pre Hp].
    exists p, pre. repeat split; assumption.
  - intros (p & pre & -> & Hne & Hp). simpl.
    destruct (String.eqb_spec p ""); [contradiction|]. simpl.
    apply endsWith_suffix. exists pre. exact Hp.
Qed.

(** [writeProjectFile] given a path that is missing or not valid writes
    the default project file instead, and no other file changes: the path
    given is not written. *)
Theorem writeProjectFile_invalid_path_writes_default
    (projectInfo : ProjectInfo) (resolver : Resolver) (path : option string) :
  isValidProjectFilePath path = false ->
  writeProjectFile projectInfo resolver path !! graphcoolProjectFileName
  = Some (projectInfoToContents projectInfo)
  /\ forall q : string,
       q <> graphcoolProjectFileName ->
       writeProjectFile projectInfo resolver path !! q = resolver !! q.
Proof.
  intros H. unfold writeProjectFile, projectFilePath, write. rewrite H.
  simpl JS.to_string. split.
  - apply lookup_insert_eq.
  - intros q Hq. apply lookup_insert_ne. congruence.
Qed.

(** [writeProjectFile] given a valid path writes that file and no
    other. *)
Theorem writeProjectFile_valid_path_writes_it
    (projectInfo : ProjectInfo) (resolver : Resolver) (p : string) :
  isValidProjectFilePath (Some p) = true ->
  writeProjectFile projectInfo resolver (Some p) !! p
  = Some (projectInfoToContents projectInfo)
  /\ forall q : string,
       q <> p ->
       writeProjectFile projectInfo resolver (Some p) !! q = resolver !! q.
Proof.
  intros H. unfold writeProjectFile, projectFilePath, write. rewrite H.
  simpl JS.to_string. split.
  - apply lookup_insert_eq.
  - intros q Hq. apply lookup_insert_ne. congruence.
Qed.

(** The project id read from a file that holds the text [# project: ] is
    the run of lowercase letters and digits that follows the FIRST
    occurrence of that text, up to the first other character or the end of
    the file. *)
Theorem readProjectId_first_occurrence_run (resolver : Resolver)
    (path contents : string) :
  resolver !! path = Some contents ->
  JS.includes "# project: " contents = true ->
  exists pre ident rest,
    contents = (pre ++ "# project: " ++ ident ++ rest)%string
    /\ (forall k : nat, (k < String.length pre)%nat ->
          JS.startsWith "# project: " (JS.drop k contents) = false)
    /\ string_forallb JS.lower_alnum ident = true
    /\ (rest = ""%string
        \/ exists c r, rest = String c r /\ JS.lower_alnum c = false)
    /\ readProjectIdFromProjectFile resolver path = Ok (Some ident).
Proof.
  intros Hread Hinc.
  destruct (match_lit_group "# project: " JS.lower_alnum contents Hinc)
    as (pre & g & rest & Hc & Hfirst & Hall & Hnext & Hg).
  exists pre, g, rest. repeat split; try assumption.
  unfold readProjectIdFromProjectFile, read. rewrite Hread.
  unfold res_bind, project_re. rewrite Hg. reflexivity.
Qed.

(** [readVersionFromProjectFile] never throws on a file that exists.  It
    returns undefined exactly when the text [# version: ] does not occur,
    and otherwise the run of lowercase letters and digits that follows its
    first occurrence. *)
Theorem readVersion_first_occurrence_run (resolver : Resolver)
    (path contents : string) :
  resolver !! path = Some contents ->
  if JS.includes "# version: " contents
  then exists pre v rest,
         contents = (pre ++ "# version: " ++ v ++ rest)%string
         /\ (forall k : nat, (k < String.length pre)%nat ->
               JS.startsWith "# version: " (JS.drop k contents) = false)
         /\ string_forallb JS.lower_alnum v = true
         /\ (rest = ""%string
             \/ exists c r, rest = String c r /\ JS.lower_alnum c = false)
         /\ readVersionFromProjectFile resolver path = Ok (Some v)
  else readVersionFromProjectFile resolver path = Ok None.
Proof.
  intros Hread. destruct (JS.includes "# version: " contents) eqn:Hinc.
  - destruct (match_lit_group "# version: " JS.lower_alnum contents Hinc)
      as (pre & g & rest & Hc & Hfirst & Hall & Hnext & Hg).
    exists pre, g, rest. repeat split; try assumption.
    unfold readVersionFromProjectFile, read. rewrite Hread.
    unfold res_bind, version_re. rewrite Hg. reflexivity.
  - unfold readVersionFromProjectFile, read. rewrite Hread.
    unfold res_bind, version_re, JS.match_. simpl JS.anchored.
    rewrite (search_lit_none "# version: " JS.lower_alnum contents Hinc).
    reflexivity.
Qed.

(** [readProjectInfoFromProjectFile] never throws on a file that exists,
    and a project info it returns has a non-empty project id made of
    lowercase letters and digits, the version [readVersionFromProjectFile]
    reads and the schema [readDataModelFromProjectFile] reads. *)
Theorem readProjectInfo_defined_id (resolver : Resolver)
    (path contents : string) :
  resolver !! path = Some contents ->
  readProjectInfoFromProjectFile resolver path = Ok None
  \/ exists info,
       readProjectInfoFromProjectFile resolver path = Ok (Some info)
       /\ projectId info <> ""%string
       /\ string_forallb JS.lower_alnum (projectId info) = true
       /\ readProjectIdFromProjectFile resolver path
          = Ok (Some (projectId info))
       /\ readVersionFromProjectFile resolver path = Ok (version info)
       /\ readDataModelFromProjectFile resolver path = Ok (schema info).
Proof.
  intros Hread.
  assert (Hrid : readProjectIdFromProjectFile resolver path
                 = Ok (group1 (JS.match_ project_re contents))).
  { unfold readProjectIdFromProjectFile, read. rewrite Hread. reflexivity. }
  destruct (JS.includes "# project: " contents) eqn:Hinc.
  - destruct (match_lit_group "# project: " JS.lower_alnum contents Hinc)
      as (pre & ident & rest & _ & _ & Hall & _ & Hg).
    fold project_re in Hg. rewrite Hg in Hrid.
    unfold readProjectInfoFromProjectFile. rewrite Hrid.
    unfold readVersionFromProjectFile, readDataModelFromProjectFile, read.
    rewrite Hread. cbv beta iota delta [res_bind JS.truthy].
    destruct (ident =? "")%string eqn:E; [left; reflexivity|].
    right. cbv beta iota delta [negb].
    eexists. split; [reflexivity|]. simpl.
    apply String.eqb_neq in E.
    repeat split; try assumption; reflexivity.
  - left. unfold readProjectInfoFromProjectFile. rewrite Hrid.
    unfold project_re, JS.match_. simpl JS.anchored.
    rewrite (search_lit_none "# project: " JS.lower_alnum contents Hinc).
    reflexivity.
Qed.


(** ** [Deploy.deploy], continued *)

(** Splits a deploy on the settled push and on the shape of the migration
    result, and runs it. *)
Ltac deploy_cases reply projectIsNew :=
  let r := fresh "r" in
  let e := fresh "e" in
  let Hm := fresh "Hm" in
  let He := fresh "He" in
  let Hd := fresh "Hd" in
  destruct reply as [r|e];
  [ destruct (migrationMessages r) as [[|? ?]|] eqn:Hm,
             (errors r) as [[|e ?]|] eqn:He, projectIsNew;
    try destruct (JS.includes "destructive changes" (description e)) eqn:Hd;
    step_cmd; rewrite ?Hm, ?He; step_cmd; rewrite ?Hd
  | step_cmd ].

(** However a deploy ends, it ends in one of two ways: it returns, with
    the flag cleared and the endpoint as the last text logged; or it
    throws, with the flag set.  In both the cluster and the default target
    of the environment are as before. *)
Theorem deploy_returns_idle_or_throws_busy (projectIsNew : bool)
    (targetName : option string) (projectId : string) (isLocal force : bool)
    (projectName : option string) (reply : Res MigrationResult) (s : State) :
  match
    deploy projectIsNew targetName projectId isLocal force projectName reply s
  with
  | (Ok _, s', evs) =>
      deploying s' = false
      /\ List.last evs ActionStop
         = Log ("Endpoint: " ++ simpleEndpoint projectId)%string
      /\ activeCluster s' = activeCluster s
      /\ env_default s' = env_default s
  | (Throw _, s', evs) =>
      deploying s' = true
      /\ existsb (is_endpoint projectId) evs = false
      /\ activeCluster s' = activeCluster s
      /\ env_default s' = env_default s
  end.
Proof.
  deploy_cases reply projectIsNew; repeat split; reflexivity.
Qed.

(** With a migration result in hand, a deploy throws exactly when one of
    the two lists is absent while the other is not empty; what it throws is
    the [TypeError] of reading the length of the absent list. *)
Theorem deploy_throws_iff_list_missing (projectIsNew : bool)
    (targetName : option string) (projectId : string) (isLocal force : bool)
    (projectName : option string) (r : MigrationResult) (s : State) :
  (exists e s' evs,
     deploy projectIsNew targetName projectId isLocal force projectName
       (Ok r) s = (Throw e, s', evs))
  <-> ((migrationMessages r = None /\ exists e es, errors r = Some (e :: es))
       \/ (errors r = None
           /\ exists m ms, migrationMessages r = Some (m :: ms))).
Proof.
  split.
  - intros (e & s' & evs & H).
    destruct (migrationMessages r) as [[|m ms]|] eqn:Hm,
             (errors r) as [[|e0 es]|] eqn:He, projectIsNew;
      step_cmd_in H; rewrite ?Hm, ?He in H; step_cmd_in H;
      try destruct (JS.includes "destructive changes" (description e0));
      try discriminate H;
      solve [ left; split; [reflexivity | eauto]
            | right; split; [reflexivity | eauto] ].
  - intros [[Hm (e0 & es & He)] | [He (m & ms & Hm)]].
    + eexists. eexists. eexists.
      step_cmd. rewrite Hm, He. step_cmd. reflexivity.
    + destruct projectIsNew; eexists; eexists; eexists;
        step_cmd; rewrite Hm, He; step_cmd; reflexivity.
Qed.

(** A deploy changes the definition in memory in one case only: the
    migration result has messages, and then to the definition the server
    returned.  A rejected push, or a result without messages, leaves it as
    it was and [definition.set] is not called, whatever the errors. *)
Theorem deploy_definition_changes_only_with_messages (projectIsNew : bool)
    (targetName : option string) (projectId : string) (isLocal force : bool)
    (projectName : option string) (reply : Res MigrationResult) (s : State) :
  match
    deploy projectIsNew targetName projectId isLocal force projectName reply s
  with
  | (_, s', evs) =>
      (definition s' = definition s
       /\ existsb is_definition_set evs = false)
      \/ (exists r m ms,
            reply = Ok r
            /\ migrationMessages r = Some (m :: ms)
            /\ definition s' = Some (projectDefinition r))
  end.
Proof.
  deploy_cases reply projectIsNew;
    solve [ left; split; reflexivity
          | right; eexists; eexists; eexists;
            split; [reflexivity | split; [eassumption | reflexivity]] ].
Qed.

(** Every deploy starts the progress indicator and calls [client.push]
    once, with [dryRun] false and the definition in memory at that moment.
    The indicator is stopped exactly when the push resolves: after a
    rejected push nothing more is called, and the indicator is left
    running. *)
Theorem deploy_pushes_once (projectIsNew : bool)
    (targetName : option string) (projectId : string) (isLocal force : bool)
    (projectName : option string) (reply : Res MigrationResult) (s : State) :
  match
    deploy projectIsNew targetName projectId isLocal force projectName reply s
  with
  | (_, _, evs) =>
      exists start rest,
        evs = ActionStart start
              :: ClientPush projectId force false (definition s) :: rest
        /\ existsb is_push rest = false
        /\ match reply with
           | Ok _ => exists rest', rest = ActionStop :: rest'
                                   /\ existsb is_stop rest' = false
           | Throw _ => rest = []
           end
  end.
Proof.
  deploy_cases reply projectIsNew;
    (eexists; eexists; split; [reflexivity|]; split; [reflexivity|]);
    try reflexivity;
    (eexists; split; reflexivity).
Qed.

(** A deploy logs the remediation hint at most once, and logs it only when
    the first error of the migration result is a destructive-change
    rejection. *)
Theorem deploy_hint_only_for_first_error (projectIsNew : bool)
    (targetName : option string) (projectId : string) (isLocal force : bool)
    (projectName : option string) (reply : Res MigrationResult) (s : State) :
  match
    deploy projectIsNew targetName projectId isLocal force projectName reply s
  with
  | (_, _, evs) =>
      hint_count evs = 0%nat
      \/ (hint_count evs = 1%nat
          /\ exists r e es,
               reply = Ok r /\ errors r = Some (e :: es)
               /\ destructive e = true)
  end.
Proof.
  deploy_cases reply projectIsNew;
    first [ left; count_hints
          | right; split;
            [ count_hints
            | eexists; eexists; eexists;
              split; [reflexivity | split; [eassumption | eassumption]] ] ].
Qed.


(** ** [Deploy.run], continued *)

(** The calls of a deploy: the progress indicator, the push, and then the
    reporting sink and [definition.set] only. *)
Lemma deploy_events (projectIsNew : bool)
    (targetName : option string) (projectId : string) (isLocal force : bool)
    (projectName : option string) (reply : Res MigrationResult) (s : State) :
  match
    deploy projectIsNew targetName projectId isLocal force projectName reply s
  with
  | (_, _, evs) =>
      exists start rest,
        evs = ActionStart start
              :: ClientPush projectId force false (definition s) :: rest
        /\ forallb is_report rest = true
  end.
Proof.
  deploy_cases reply projectIsNew;
    eexists; eexists; split; reflexivity.
Qed.

Lemma report_only (rest : list Event) :
  forallb is_report rest = true ->
  existsb is_create rest = false
  /\ existsb is_local_write rest = false
  /\ existsb is_push rest = false
  /\ existsb is_load rest = false
  /\ existsb is_watch rest = false.
Proof.
  induction rest as [|ev rest IH]; intros H; [repeat split; reflexivity|].
  simpl in H. apply andb_true_iff in H as [Hev Hrest].
  destruct (IH Hrest) as (H1 & H2 & H3 & H4 & H5).
  destruct ev; try discriminate Hev; simpl;
    rewrite ?H1, ?H2, ?H3, ?H4, ?H5; repeat split; reflexivity.
Qed.

Ltac run_cmd :=
  change (JS.truthy None) with false;
  cbv -[deploy String.append chalk_bold JS.to_string JS.or_else JS.truthy
        watching_text existsb is_create is_local_write is_push is_load
        is_watch is_set_default In
        Flags.watch Flags.force Flags.alias Flags.new_service
        Flags.new_service_cluster Flags.target
        Target.id Target.cluster targetName target].

(** A conditional whose branches agree. *)
Ltac same_branches :=
  repeat match goal with
         | |- context [if ?b then ?x else ?x] =>
             replace (if b then x else x) with x by (destruct b; reflexivity)
         end.

(** Membership in a list that is given up to its tail. *)
Ltac in_list := solve [repeat (first [left; reflexivity | right])].

(** Names the result of the deploy inside a run and the shape of its
    calls. *)
Ltac name_deploy r1 s1 rest Hrep :=
  match goal with
  | |- context [deploy ?a ?b ?c ?i ?f ?g ?h ?st] =>
      let Hsh := fresh "Hsh" in
      let evs1 := fresh "evs1" in
      let start := fresh "start" in
      pose proof (deploy_events a b c i f g h st) as Hsh;
      destruct (deploy a b c i f g h st) as [[r1 s1] evs1];
      destruct Hsh as (start & rest & -> & Hrep)
  end.

(** When the target reference resolves, [run] deploys to the project of
    that target: it creates no project, writes nothing to the local
    configuration, and pushes the definition just loaded to the id of the
    target. *)
Theorem run_resolved_target_deploys_to_it (flags : Flags.t) (w : Replies)
    (s : State) (ft : FoundTarget) (d : ProjectDefinition) :
  JS.truthy (Flags.new_service flags) = false ->
  getTargetWithName (Flags.target flags) = Some ft ->
  auth_reply w = Ok tt ->
  load_reply w = Ok d ->
  match run flags w s with
  | (_, _, evs) =>
      existsb is_create evs = false
      /\ existsb is_local_write evs = false
      /\ In (ClientPush (Target.id (target ft)) (Flags.force flags) false
               (Some d)) evs
  end.
Proof.
  intros Hnew Hfound Hauth Hload.
  unfold run. rewrite Hnew, Hfound, Hauth, Hload.
  destruct s as [dpl def ac ed]. run_cmd.
  name_deploy r1 s1 rest Hrep.
  destruct (report_only rest Hrep) as (H1 & H2 & H3 & H4 & H5).
  destruct r1 as [[]|e]; [destruct (Flags.watch flags)|];
    cbv beta iota zeta; simpl;
    rewrite ?existsb_app, ?H1, ?H2; simpl;
    repeat split; auto 10.
Qed.


(** With a new-service name, [run] creates a project of that name, whatever
    the target reference resolves to: in the cluster named on the command
    line, else in the active one.  It registers the project as
    cluster/id under the target name given, else under the default target
    name of the cluster, saves the local configuration, and pushes the
    definition just loaded to the new project. *)
Theorem run_new_service_creates_and_registers (flags : Flags.t)
    (w : Replies) (s : State) (d : ProjectDefinition) (created : string) :
  JS.truthy (Flags.new_service flags) = true ->
  auth_reply w = Ok tt ->
  load_reply w = Ok d ->
  create_reply w = Ok created ->
  let cluster :=
    if JS.truthy (Flags.new_service_cluster flags)
    then JS.to_string (Flags.new_service_cluster flags)
    else activeCluster s in
  let name :=
    JS.or_else (Flags.target flags) (Some (getDefaultTargetName cluster)) in
  match run flags w s with
  | (_, _, evs) =>
      In (ClientCreateProject (JS.to_string (Flags.new_service flags))
            emptyDefinition (Flags.alias flags)
            (getRegionFromCluster cluster)) evs
      /\ In (SetLocalTarget name (cluster ++ "/" ++ created)%string) evs
      /\ In SaveLocalRC evs
      /\ In (ClientPush created (Flags.force flags) false (Some d)) evs
  end.
Proof.
  intros Hnew Hauth Hload Hcreate.
  unfold run. rewrite Hnew, Hauth, Hload, Hcreate.
  destruct s as [dpl def ac ed].
  destruct (JS.truthy (Flags.new_service_cluster flags)) eqn:Hnsc;
    run_cmd; rewrite ?Hnsc; run_cmd;
    destruct (JS.truthy ed); run_cmd;
    name_deploy r1 s1 rest Hrep;
    (destruct r1 as [[]|e]; [destruct (Flags.watch flags)|]);
    cbv beta iota zeta; simpl; same_branches;
    unfold JS.or_else; rewrite ?Hnew;
    repeat split; in_list.
Qed.


(** Without a new-service name and with a target reference that does not
    resolve (or none at all), [run] creates a project under the generated
    name in the active cluster, and registers it with the target name left
    undefined. *)
Theorem run_unresolved_target_registers_unnamed (flags : Flags.t)
    (w : Replies) (s : State) (d : ProjectDefinition) (created : string) :
  JS.truthy (Flags.new_service flags) = false ->
  getTargetWithName (Flags.target flags) = None ->
  auth_reply w = Ok tt ->
  load_reply w = Ok d ->
  create_reply w = Ok created ->
  match run flags w s with
  | (_, _, evs) =>
      In (ClientCreateProject sillyName emptyDefinition (Flags.alias flags)
            (getRegionFromCluster (activeCluster s))) evs
      /\ In (SetLocalTarget None (activeCluster s ++ "/" ++ created)%string)
           evs
      /\ In SaveLocalRC evs
      /\ In (ClientPush created (Flags.force flags) false (Some d)) evs
  end.
Proof.
  intros Hnew Hfound Hauth Hload Hcreate.
  unfold run. rewrite Hnew, Hfound, Hauth, Hload, Hcreate.
  destruct s as [dpl def ac ed]. run_cmd.
  destruct (JS.truthy ed); run_cmd;
    name_deploy r1 s1 rest Hrep;
    (destruct r1 as [[]|e]; [destruct (Flags.watch flags)|]);
    cbv beta iota zeta; simpl; same_branches;
    unfold JS.or_else; rewrite ?Hnew;
    repeat split; in_list.
Qed.

(** When authentication or the loading of the definition fails, [run]
    throws that failure and goes no further: no project is created,
    nothing is pushed, the local configuration is not written, no watcher
    is installed, and the flag is untouched. *)
Theorem run_stops_at_auth_or_load_failure (flags : Flags.t) (w : Replies)
    (s : State) (e : exn) :
  (auth_reply w = Throw e
   \/ (auth_reply w = Ok tt /\ load_reply w = Throw e)) ->
  match run flags w s with
  | (r, s', evs) =>
      r = Throw e
      /\ existsb is_create evs = false
      /\ existsb is_push evs = false
      /\ existsb is_local_write evs = false
      /\ existsb is_watch evs = false
      /\ deploying s' = deploying s
      /\ definition s' = definition s
  end.
Proof.
  intros H. unfold run. destruct s as [dpl def ac ed].
  destruct H as [Hauth | [Hauth Hload]];
    rewrite Hauth; try rewrite Hload;
    (destruct (JS.truthy (Flags.new_service flags));
     [ destruct (JS.truthy (Flags.new_service_cluster flags))
     | destruct (getTargetWithName (Flags.target flags)) ]);
    run_cmd; repeat split; reflexivity.
Qed.

(** When the creation of the project fails, [run] throws that failure
    before it touches the local configuration: no target is registered, no
    default is set, nothing is saved, and nothing is pushed.  The progress
    indicator started for the creation is not stopped. *)
Theorem run_failed_creation_registers_nothing (flags : Flags.t)
    (w : Replies) (s : State) (d : ProjectDefinition) (e : exn) :
  (JS.truthy (Flags.new_service flags) = true
   \/ getTargetWithName (Flags.target flags) = None) ->
  auth_reply w = Ok tt ->
  load_reply w = Ok d ->
  create_reply w = Throw e ->
  match run flags w s with
  | (r, _, evs) =>
      r = Throw e
      /\ existsb is_create evs = true
      /\ existsb is_local_write evs = false
      /\ existsb is_push evs = false
      /\ existsb is_stop evs = false
  end.
Proof.
  intros Hpath Hauth Hload Hcreate.
  unfold run. rewrite Hauth, Hload, Hcreate.
  destruct s as [dpl def ac ed].
  destruct (JS.truthy (Flags.new_service flags)) eqn:Hnew.
  - destruct (JS.truthy (Flags.new_service_cluster flags));
      run_cmd; repeat split; reflexivity.
  - destruct Hpath as [Hp | Hp]; [discriminate Hp|].
    rewrite Hp. run_cmd. repeat split; reflexivity.
Qed.

(** When [run] creates a project, it makes the new target the local
    default exactly when the environment has no default yet. *)
Theorem run_sets_default_target_iff_none (flags : Flags.t)
    (w : Replies) (s : State) (d : ProjectDefinition) (created : string) :
  (JS.truthy (Flags.new_service flags) = true
   \/ getTargetWithName (Flags.target flags) = None) ->
  auth_reply w = Ok tt ->
  load_reply w = Ok d ->
  create_reply w = Ok created ->
  match run flags w s with
  | (_, _, evs) =>
      existsb is_set_default evs = negb (JS.truthy (env_default s))
  end.
Proof.
  intros Hpath Hauth Hload Hcreate.
  unfold run. rewrite Hauth, Hload, Hcreate.
  destruct s as [dpl def ac ed].
  assert (Hrest : forall rest tail,
            forallb is_report rest = true ->
            existsb is_set_default (rest ++ tail)
            = existsb is_set_default tail).
  { intros rest tail Hrep. rewrite existsb_app.
    replace (existsb is_set_default rest) with false; [reflexivity|].
    symmetry. clear -Hrep. induction rest as [|ev rest IH]; [reflexivity|].
    simpl in Hrep. apply andb_true_iff in Hrep as [Hev Hrep].
    destruct ev; try discriminate Hev; simpl; auto. }
  destruct (JS.truthy (Flags.new_service flags)) eqn:Hnew;
    [ destruct (JS.truthy (Flags.new_service_cluster flags)) eqn:Hnsc
    | destruct Hpath as [Hp | Hp]; [discriminate Hp | rewrite Hp] ];
    run_cmd; rewrite ?Hnsc; run_cmd;
    destruct (JS.truthy ed); run_cmd;
    name_deploy r1 s1 rest Hrep;
    (destruct r1 as [[]|e]; [destruct (Flags.watch flags)|]);
    cbv beta iota zeta; simpl;
    rewrite ?Hrest by assumption;
    try reflexivity;
    try (rewrite <- (app_nil_r rest), Hrest by assumption; reflexivity).
Qed.


(** [run] installs the watcher exactly when the watch flag is given and
    the first deploy has returned: a run that throws, at any point,
    installs none. *)
Theorem run_installs_watcher_iff (flags : Flags.t) (w : Replies) (s : State) :
  match run flags w s with
  | (r, _, evs) =>
      existsb is_watch evs = true
      <-> (Flags.watch flags = true /\ r = Ok tt)
  end.
Proof.
  unfold run. destruct s as [dpl def ac ed].
  assert (Hrest : forall rest tail,
            forallb is_report rest = true ->
            existsb is_watch (rest ++ tail) = existsb is_watch tail).
  { intros rest tail Hrep. rewrite existsb_app.
    destruct (report_only rest Hrep) as (_ & _ & _ & _ & ->). reflexivity. }
  destruct (auth_reply w) as [[]|ea], (load_reply w) as [d|el],
           (create_reply w) as [created|ec];
    (destruct (JS.truthy (Flags.new_service flags)) eqn:Hnew;
     [ destruct (JS.truthy (Flags.new_service_cluster flags)) eqn:Hnsc
     | destruct (getTargetWithName (Flags.target flags)) as [ft|] ]);
    run_cmd; rewrite ?Hnsc; run_cmd;
    try (destruct (JS.truthy ed); run_cmd);
    try (name_deploy r1 s1 rest Hrep;
         (destruct r1 as [[]|e];
          [destruct (Flags.watch flags) eqn:Hwatch|]);
         cbv beta iota zeta; simpl;
         rewrite ?Hrest by assumption;
         try (rewrite <- (app_nil_r rest), Hrest by assumption));
    simpl;
    (split; [ intros H; try discriminate H; split; reflexivity
            | intros [H1 H2]; try discriminate H1; try discriminate H2;
              reflexivity ]).
Qed.


(** ** The watch loop, continued *)

(** After the push settles, a watch callback calls the reporting sink and
    [definition.set] only. *)
Lemma callback_pushed_events (cb : Callback) (reply : Res MigrationResult)
    (s : State) :
  match callback_pushed cb reply s with
  | (_, _, evs) => forallb is_report evs = true
  end.
Proof.
  destruct cb as [fl pin tn pid il f pn].
  cbv beta iota delta [cb_projectIsNew cb_targetName cb_projectId cb_isLocal
                       cb_force cb_projectName callback_pushed].
  deploy_cases reply pin; reflexivity.
Qed.

(** A loop whose flag is set while no callback is inside a deploy or
    waits for a load is stalled: whatever happens next, nothing is
    reloaded, nothing is deployed, and the flag stays set. *)
Lemma watch_stalled (cb : Callback) (acts : list Action) (y y' : Sys) :
  deploying (state y) = true ->
  loading y = 0%nat ->
  pushing y = 0%nat ->
  exec_all cb acts y = Some y' ->
  state y' = state y /\ output y' = output y
  /\ loading y' = 0%nat /\ pushing y' = 0%nat.
Proof.
  revert y. induction acts as [|a acts IH]; intros y Hd Hl Hp H.
  - injection H as <-. repeat split; assumption.
  - simpl in H. destruct a as [| |reply|reply].
    + simpl in H. apply IH in H; simpl in *; assumption.
    + unfold exec in H. destruct (immediates y) as [|n]; [discriminate H|].
      unfold callback_start, bind, get in H. rewrite Hd in H.
      cbv beta iota delta [negb ret] in H. rewrite !app_nil_r in H.
      apply IH in H; simpl in *; assumption.
    + unfold exec in H. rewrite Hl in H. discriminate H.
    + unfold exec in H. rewrite Hp in H. discriminate H.
Qed.

(** One rejected push stalls the watch loop for good.  From an idle loop, a
    file change whose deploy ends in a rejected push leaves the flag set
    with nothing in flight, and from then on no file change reloads the
    definition or deploys: the calls made never grow again. *)
Theorem watch_stalls_after_rejected_push (cb : Callback) (s : State)
    (d : ProjectDefinition) (e : exn) :
  deploying s = false ->
  exists y1,
    exec_all cb [FileChange; Immediate; LoadSettled (Ok d);
                 PushSettled (Throw e)] (watching s) = Some y1
    /\ deploying (state y1) = true
    /\ forall acts y',
         exec_all cb acts y1 = Some y' ->
         output y' = output y1 /\ deploying (state y') = true.
Proof.
  intros Hd. destruct s as [dpl def ac ed]. simpl in Hd. subst dpl.
  eexists. split; [reflexivity|]. split; [reflexivity|].
  intros acts y' H.
  apply watch_stalled in H; try reflexivity.
  destruct H as (Hs & Ho & _ & _). rewrite Hs. split; [exact Ho | reflexivity].
Qed.

(** A whole watch cycle returns to idle.  From an idle loop, a file change
    whose reload succeeds and whose push resolves with both lists present
    reloads once, pushes once, logs that it watches again as the last
    text, and leaves the flag down with nothing in flight. *)
Theorem watch_cycle_returns_to_idle (cb : Callback) (s : State)
    (d : ProjectDefinition) (r : MigrationResult)
    (messages : list MigrationMessage) (es : list MigrationError) :
  deploying s = false ->
  migrationMessages r = Some messages ->
  errors r = Some es ->
  exists y',
    exec_all cb [FileChange; Immediate; LoadSettled (Ok d);
                 PushSettled (Ok r)] (watching s) = Some y'
    /\ deploying (state y') = false
    /\ immediates y' = 0%nat /\ loading y' = 0%nat /\ pushing y' = 0%nat
    /\ count is_load (output y') = 1%nat
    /\ count is_push (output y') = 1%nat
    /\ List.last (output y') ActionStop = Log "Watching for change...".
Proof.
  intros Hd Hm He. destruct s as [dpl def ac ed]. simpl in Hd. subst dpl.
  destruct cb as [fl pin tn pid il f pn].
  unfold exec_all, exec, watching.
  cbv beta iota delta [immediates loading pushing state output].
  unfold callback_start at 1.
  cbv beta iota delta [bind get ret negb deploying definition_load_call emit
                       cb_flags app].
  cbv beta iota delta [callback_loaded callback_pushed cb_projectIsNew
                       cb_targetName cb_projectId cb_isLocal cb_force
                       cb_projectName].
  destruct pin, messages as [|m messages], es as [|e0 es];
    try destruct (JS.includes "destructive changes" (description e0)) eqn:Hdes;
    step_cmd; rewrite ?Hm, ?He; step_cmd; rewrite ?Hdes;
    (eexists; split; [reflexivity|]; repeat split; reflexivity).
Qed.


Lemma count_app (p : Event -> bool) (a b : list Event) :
  count p (a ++ b) = (count p a + count p b)%nat.
Proof.
  unfold count. rewrite List.filter_app, List.length_app. reflexivity.
Qed.

Lemma report_counts (evs : list Event) :
  forallb is_report evs = true ->
  count is_push evs = 0%nat /\ count is_load evs = 0%nat.
Proof.
  induction evs as [|ev evs IH]; intros H; [split; reflexivity|].
  simpl in H. apply andb_true_iff in H as [Hev Hevs].
  destruct (IH Hevs) as [H1 H2].
  destruct ev; try discriminate Hev; unfold count in *; simpl;
    split; assumption.
Qed.

Lemma watch_step_keeps_loads_ahead (cb : Callback) (a : Action) (y y' : Sys) :
  (count is_push (output y) + loading y <= count is_load (output y))%nat ->
  exec cb a y = Some y' ->
  (count is_push (output y') + loading y' <= count is_load (output y'))%nat.
Proof.
  intros Hinv H. destruct a as [| |reply|reply]; unfold exec in H.
  - injection H as <-. exact Hinv.
  - destruct (immediates y) as [|n]; [discriminate H|].
    unfold callback_start, bind, get in H.
    destruct (deploying (state y));
      cbv beta iota delta [negb ret definition_load_call emit bind] in H;
      injection H as <-; cbn [output loading];
      rewrite !count_app; unfold count at 2 4; simpl; lia.
  - destruct (loading y) as [|n] eqn:Hl; [discriminate H|].
    destruct reply as [d|e]; step_cmd_in H;
      injection H as <-; cbn [output loading];
      rewrite !count_app; unfold count at 2 4; simpl; lia.
  - destruct (pushing y) as [|n]; [discriminate H|].
    pose proof (callback_pushed_events cb reply (state y)) as Hrep.
    destruct (callback_pushed cb reply (state y)) as [[r s'] evs].
    injection H as <-. cbn [output loading].
    destruct (report_counts evs Hrep) as [H1 H2].
    rewrite !count_app, H1, H2. lia.
Qed.

(** In the watch loop every push follows a reload of its own: at any
    point, the pushes made and the callbacks still waiting on a reload
    together do not exceed the reloads made. *)
Theorem watch_pushes_follow_loads (cb : Callback) (acts : list Action)
    (s : State) (y' : Sys) :
  exec_all cb acts (watching s) = Some y' ->
  (count is_push (output y') + loading y' <= count is_load (output y'))%nat.
Proof.
  assert (Hgen : forall acts y y',
            (count is_push (output y) + loading y
             <= count is_load (output y))%nat ->
            exec_all cb acts y = Some y' ->
            (count is_push (output y') + loading y'
             <= count is_load (output y'))%nat).
  { clear. intros acts. induction acts as [|a acts IH]; intros y y' Hinv H.
    - injection H as <-. exact Hinv.
    - simpl in H. destruct (exec cb a y) as [y1|] eqn:E; [|discriminate H].
      apply (IH y1 y'); [|exact H].
      apply (watch_step_keeps_loads_ahead cb a y y1 Hinv E). }
  apply Hgen. unfold watching, count. simpl. lia.
Qed.


(** ** src/utils/file.ts: the data model and the header *)

Lemma indexOf_from_first_le (p s : string) (i : Z) (n m : nat) :
  JS.indexOf_from p s i = i + Z.of_nat n ->
  (forall k : nat, (k < n)%nat -> JS.startsWith p (JS.drop k s) = false) ->
  JS.startsWith p (JS.drop m s) = true ->
  (n <= m)%nat.
Proof.
  intros _ Hfirst Hm. destruct (Nat.le_gt_cases n m) as [H|H]; [exact H|].
  rewrite (Hfirst m H) in Hm. discriminate Hm.
Qed.

Lemma app_assoc_string (a b c : string) :
  ((a ++ b) ++ c = a ++ (b ++ c))%string.
Proof.
  induction a as [|x a IH]; [reflexivity|].
  change (String x ((a ++ b) ++ c) = String x (a ++ (b ++ c)))%string.
  rewrite IH. reflexivity.
Qed.

(** The data model is cut at the first [type] of the whole file, header
    included: when the text before the schema holds the token, as a project
    id or a version such as [prototype] does, what is read back starts
    inside that text and is longer than the schema. *)
Theorem readDataModel_cuts_inside_header (resolver : Resolver)
    (path header body : string) :
  resolver !! path = Some (header ++ body)%string ->
  JS.includes "type" header = true ->
  exists n : nat,
    (n + 4 <= String.length header)%nat
    /\ readDataModelFromProjectFile resolver path
       = Ok (JS.drop n (header ++ body))
    /\ (String.length body + 4
        <= String.length (JS.drop n (header ++ body)))%nat.
Proof.
  intros Hread Hinc.
  apply includes_occurs in Hinc as (pre & post & Hh).
  assert (Hocc : JS.startsWith "type"
                   (JS.drop (String.length pre) (header ++ body)) = true).
  { rewrite Hh. rewrite !app_assoc_string. rewrite drop_app.
    apply startsWith_app. }
  assert (Hinc' : JS.includes "type" (header ++ body) = true).
  { apply includes_occurs. exists pre, (post ++ body)%string.
    rewrite Hh, !app_assoc_string. reflexivity. }
  unfold JS.includes, JS.indexOf in Hinc'. apply Z.leb_le in Hinc'.
  destruct (indexOf_from_found "type" (header ++ body) 0)
    as (n & Hn & Hle & Hs & Hfirst); [lia|].
  pose proof (indexOf_from_first_le _ _ _ _ _ Hn Hfirst Hocc) as Hnp.
  assert (Hlen : String.length header = (String.length pre + 4
                                         + String.length post)%nat).
  { rewrite Hh, !length_app. simpl. lia. }
  exists n. split; [lia|]. split.
  - unfold readDataModelFromProjectFile, read. rewrite Hread.
    unfold res_bind, JS.indexOf. rewrite Hn, Z.add_0_l.
    rewrite substring_to_end by exact Hle. reflexivity.
  - rewrite length_drop, length_app. lia.
Qed.


(** ** [Deploy.deploy]: messages without an errors list *)

(** C5. On an existing project, when the migration result has a non-empty
    messages list and no errors list, [deploy] throws a [TypeError] while
    it picks the header: the length of the absent errors list is read
    unguarded, before [definition.set].  The definition in memory stays as
    it was, where the specification expects the definition the server
    returned; the flag stays set. *)
Theorem deploy_messages_without_errors_list_throws_before_set
    (targetName : option string) (projectId : string) (isLocal force : bool)
    (projectName : option string) (r : MigrationResult) (s : State)
    (m : MigrationMessage) (ms : list MigrationMessage) :
  migrationMessages r = Some (m :: ms) ->
  errors r = None ->
  exists msg s' evs,
    deploy false targetName projectId isLocal force projectName (Ok r) s
    = (Throw (TypeError msg), s', evs)
    /\ definition s' = definition s
    /\ existsb is_definition_set evs = false
    /\ deploying s' = true.
Proof.
  intros Hm He. eexists. eexists. eexists. split.
  - step_cmd. rewrite Hm, He. step_cmd. reflexivity.
  - repeat split; reflexivity.
Qed.

(** On a new project the header needs no errors list: [definition.set]
    runs, and the throw comes after it, where the errors are counted. *)
Lemma deploy_new_project_sets_definition_then_throws
    (targetName : option string) (projectId : string) (isLocal force : bool)
    (projectName : option string) (r : MigrationResult) (s : State)
    (m : MigrationMessage) (ms : list MigrationMessage) :
  migrationMessages r = Some (m :: ms) ->
  errors r = None ->
  exists msg s' evs,
    deploy true targetName projectId isLocal force projectName (Ok r) s
    = (Throw (TypeError msg), s', evs)
    /\ definition s' = Some (projectDefinition r)
    /\ deploying s' = true.
Proof.
  intros Hm He. eexists. eexists. eexists. split.
  - step_cmd. rewrite Hm, He. step_cmd. reflexivity.
  - split; reflexivity.
Qed.

(** ** src/utils/file.ts: the round trip and the path read back *)

Lemma valid_path_suffix (path : option string) :
  isValidProjectFilePath path = true
  <-> exists p pre,
        path = Some p /\ p <> ""%string
        /\ p = (pre ++ projectFileSuffix)%string.
Proof.
  unfold isValidProjectFilePath. split.
  - destruct path as [p|]; simpl; [|discriminate].
    destruct (String.eqb_spec p ""); simpl; [discriminate|].
    intros H. apply endsWith_suffix in H as [pre Hp].
    exists p, pre. repeat split; assumption.
  - intros (p & pre & -> & Hne & Hp). simpl.
    destruct (String.eqb_spec p ""); [contradiction|]. simpl.
    apply endsWith_suffix. exists pre. exact Hp.
Qed.

(** C9, amended. Writing the project file of the project with id [abc123],
    schema [type User { id: ID! }] and a version that does not hold the
    token [type], and reading back the file written, gives the project id
    [abc123] and the schema, which begins with [type User].  The file
    written is the path given when that is a non-empty string ending with
    the project file suffix, and the default project file otherwise. *)
Theorem project_file_round_trip_at_written_path (resolver : Resolver)
    (path : option string) (dest v : string) :
  JS.includes "type" v = false ->
  ((exists p pre,
      path = Some p /\ p <> ""%string
      /\ p = (pre ++ projectFileSuffix)%string /\ dest = p)
   \/ ((forall p pre,
          path = Some p -> p <> ""%string ->
          p <> (pre ++ projectFileSuffix)%string)
       /\ dest = graphcoolProjectFileName)) ->
  exists info',
    readProjectInfoFromProjectFile
      (writeProjectFile
         {| projectId := "abc123"; version := Some v;
            schema := "type User { id: ID! }" |} resolver path) dest
    = Ok (Some info')
    /\ projectId info' = "abc123"
    /\ schema info' = "type User { id: ID! }"
    /\ JS.startsWith "type User" (schema info') = true.
Proof.
  intros Hv Hpath.
  assert (Hdest : JS.to_string (projectFilePath path) = dest).
  { unfold projectFilePath.
    destruct Hpath as [(p & pre & -> & Hne & Hp & ->) | [Hinv ->]].
    - assert (Hvalid : isValidProjectFilePath (Some p) = true).
      { apply valid_path_suffix. exists p, pre. repeat split; assumption. }
      rewrite Hvalid. reflexivity.
    - destruct (isValidProjectFilePath path) eqn:E; [|reflexivity].
      apply valid_path_suffix in E as (p & pre & Hp & Hne & Hsuf).
      exfalso. exact (Hinv p pre Hp Hne Hsuf). }
  rewrite <- Hdest.
  exact (project_file_round_trip resolver path v Hv).
Qed.

End Command.

Arguments Log {ProjectDefinition} text.
Arguments ActionStart {ProjectDefinition} text.
Arguments ActionStop {ProjectDefinition}.
Arguments PrintMessages {ProjectDefinition} ms.
Arguments PrintErrors {ProjectDefinition} es.
Arguments EnsureAuth {ProjectDefinition}.
Arguments DefinitionLoad {ProjectDefinition} flags.
Arguments InjectEnvironment {ProjectDefinition}.
Arguments DefinitionSet {ProjectDefinition} d.
Arguments ClientCreateProject {ProjectDefinition} name d alias region.
Arguments ClientPush {ProjectDefinition} projectId force dryRun d.
Arguments SetLocalTarget {ProjectDefinition} name value.
Arguments SetLocalDefaultTarget {ProjectDefinition} name.
Arguments SaveLocalRC {ProjectDefinition}.
Arguments Watch {ProjectDefinition} dir cb.
Arguments deploying {ProjectDefinition} s.
Arguments definition {ProjectDefinition} s.
Arguments activeCluster {ProjectDefinition} s.
Arguments env_default {ProjectDefinition} s.
Arguments migrationMessages {ProjectDefinition} m.
Arguments errors {ProjectDefinition} m.
Arguments projectDefinition {ProjectDefinition} m.
Arguments state {ProjectDefinition} s.
Arguments output {ProjectDefinition} s.
Arguments immediates {ProjectDefinition} s.
Arguments loading {ProjectDefinition} s.
Arguments pushing {ProjectDefinition} s.
Arguments FileChange {ProjectDefinition}.
Arguments Immediate {ProjectDefinition}.
Arguments LoadSettled {ProjectDefinition} reply.
Arguments PushSettled {ProjectDefinition} reply.

(** * The properties on concrete runs

    Service definitions are strings here, colours are off, and the project
    file constants have the values of the command line client. *)

(** ** src/utils/file.ts *)

(** C6, as stated, fails: this project file declares an enum and no
    [type]; what is read back as the data model is the whole file, header
    included, not an empty string. *)
Lemma readDataModel_without_type_not_empty :
  let contents :=
    ("# project: abc123" ++ JS.nl ++ "# version: 1" ++ JS.nl ++ JS.nl
     ++ "enum Role { ADMIN }")%string in
  JS.includes "type" contents = false
  /\ readDataModelFromProjectFile {[ "project.graphcool" := contents ]}
       "project.graphcool" = Ok contents
  /\ contents <> ""%string.
Proof.
  cbv zeta. split; [reflexivity|]. split; [|discriminate].
  unfold readDataModelFromProjectFile, read. rewrite lookup_singleton_eq.
  reflexivity.
Qed.

Lemma readDataModel_from_first_type_or_whole_witness :
  let contents :=
    ("# project: abc123" ++ JS.nl ++ "type User { id: ID! }")%string in
  let resolver : gmap string string := {[ "project.graphcool" := contents ]} in
  resolver !! "project.graphcool" = Some contents
  /\ exists n : nat,
       readDataModelFromProjectFile resolver "project.graphcool"
       = Ok (JS.drop n contents)
       /\ JS.startsWith "type" (JS.drop n contents) = true
       /\ forall k : nat, (k < n)%nat ->
            JS.startsWith "type" (JS.drop k contents) = false.
Proof.
  cbv zeta. split; [apply lookup_singleton_eq|].
  exact (readDataModel_from_first_type_or_whole
           {[ "project.graphcool"
              := ("# project: abc123" ++ JS.nl ++ "type User { id: ID! }")%string ]}
           "project.graphcool"
           ("# project: abc123" ++ JS.nl ++ "type User { id: ID! }")%string
           (lookup_singleton_eq _ _)).
Defined.

(** C8, as stated, fails: the id line of the first file is malformed (an
    uppercase id), and [readProjectIdFromProjectFile] answers the empty
    string, not undefined; the id line of the second is malformed too (a
    hyphen inside the id), and [readProjectInfoFromProjectFile] answers a
    project info with the id cut at the hyphen. *)
Lemma readProjectId_malformed_line_defined :
  spec_id_line_present "# project: ABC" = false
  /\ readProjectIdFromProjectFile {[ "project.graphcool" := "# project: ABC" ]}
       "project.graphcool" = Ok (Some ""%string)
  /\ spec_id_line_present "# project: abc-def" = false
  /\ readProjectInfoFromProjectFile
       {[ "project.graphcool" := "# project: abc-def" ]} "project.graphcool"
     = Ok (Some {| projectId := "abc"; version := None;
                   schema := "# project: abc-def" |}).
Proof.
  split; [reflexivity|]. split.
  - unfold readProjectIdFromProjectFile, read. rewrite lookup_singleton_eq.
    reflexivity.
  - split; [reflexivity|].
    unfold readProjectInfoFromProjectFile, readProjectIdFromProjectFile,
      readVersionFromProjectFile, readDataModelFromProjectFile, read.
    rewrite lookup_singleton_eq. reflexivity.
Qed.

Lemma readProjectId_undefined_without_id_text_witness :
  let contents := "type User { id: ID! }"%string in
  let resolver : gmap string string := {[ "project.graphcool" := contents ]} in
  resolver !! "project.graphcool" = Some contents
  /\ JS.includes "# project: " contents = false
  /\ readProjectIdFromProjectFile resolver "project.graphcool" = Ok None
  /\ readProjectInfoFromProjectFile resolver "project.graphcool" = Ok None.
Proof.
  cbv zeta. split; [apply lookup_singleton_eq|]. split; [reflexivity|].
  exact (readProjectId_undefined_without_id_text
           {[ "project.graphcool" := "type User { id: ID! }"%string ]}
           "project.graphcool" "type User { id: ID! }"
           (lookup_singleton_eq _ _) eq_refl).
Defined.

Lemma project_file_round_trip_witness :
  JS.includes "type" "1" = false
  /\ exists info',
       readProjectInfoFromProjectFile
         (writeProjectFile "project.graphcool" ".graphcool"
            {| projectId := "abc123"; version := Some "1"%string;
               schema := "type User { id: ID! }" |}
            ∅ (Some "service/project.graphcool"%string))
         (JS.to_string
            (projectFilePath "project.graphcool" ".graphcool"
               (Some "service/project.graphcool"%string)))
       = Ok (Some info')
       /\ projectId info' = "abc123"%string
       /\ schema info' = "type User { id: ID! }"%string
       /\ JS.startsWith "type User" (schema info') = true.
Proof.
  split; [reflexivity|].
  exact (project_file_round_trip "project.graphcool" ".graphcool" ∅
           (Some "service/project.graphcool"%string) "1" eq_refl).
Defined.

(** ** [Deploy.deploy] *)

Lemma deploy_up_to_date_witness :
  let r := {| migrationMessages := Some []; errors := None;
              projectDefinition := "server"%string |} in
  let s := {| deploying := false; definition := Some "local"%string;
              activeCluster := "shared-eu-west-1"; env_default := None |} in
  (migrationMessages r = None \/ migrationMessages r = Some [])
  /\ (errors r = None \/ errors r = Some [])
  /\ exists start,
       deploy string sample_endpoint no_color false (Some "prod"%string) "cj1"
         false false (Some "prod"%string) (Ok r) s
       = (Ok tt,
          {| deploying := false; definition := Some "local"%string;
             activeCluster := "shared-eu-west-1"; env_default := None |},
          [ActionStart start;
           ClientPush "cj1" false false (Some "local"%string);
           ActionStop;
           Log "Everything up-to-date.";
           Log "Endpoint: https://api.graph.cool/simple/v1/cj1"]).
Proof.
  cbv zeta. split; [right; reflexivity|]. split; [left; reflexivity|].
  exact (deploy_up_to_date string sample_endpoint no_color false
           (Some "prod"%string) "cj1" false false (Some "prod"%string)
           {| migrationMessages := Some []; errors := None;
              projectDefinition := "server"%string |}
           {| deploying := false; definition := Some "local"%string;
              activeCluster := "shared-eu-west-1"; env_default := None |}
           (or_intror eq_refl) (or_introl eq_refl)).
Defined.

(** C3, as stated, fails: the second error of this migration result is a
    destructive-change rejection, the first is not, and [deploy] logs no
    hint. *)
Lemma deploy_later_destructive_error_no_hint :
  let es := [ {| description := "The field `email` is required." |};
              {| description := "Your migration includes destructive changes." |} ] in
  let r := {| migrationMessages := Some []; errors := Some es;
              projectDefinition := "server"%string |} in
  let s := {| deploying := false; definition := Some "local"%string;
              activeCluster := "shared-eu-west-1"; env_default := None |} in
  (exists e, In e es /\ destructive e = true)
  /\ exists s' evs,
       deploy string sample_endpoint no_color false (Some "prod"%string) "cj1"
         false false (Some "prod"%string) (Ok r) s = (Ok tt, s', evs)
       /\ hint_count string no_color evs = 0%nat.
Proof.
  cbv zeta. split.
  - eexists. split; [right; left; reflexivity | reflexivity].
  - eexists. eexists. split; reflexivity.
Qed.

Lemma deploy_first_error_destructive_hint_once_witness :
  let e := {| description := "Your migration includes destructive changes." |} in
  let r := {| migrationMessages := Some []; errors := Some [e];
              projectDefinition := "server"%string |} in
  let s := {| deploying := false; definition := Some "local"%string;
              activeCluster := "shared-eu-west-1"; env_default := None |} in
  migrationMessages r = Some []
  /\ errors r = Some [e]
  /\ destructive e = true
  /\ exists s' evs,
       deploy string sample_endpoint no_color false (Some "prod"%string) "cj1"
         false false (Some "prod"%string) (Ok r) s = (Ok tt, s', evs)
       /\ hint_count string no_color evs = 1%nat.
Proof.
  cbv zeta. split; [reflexivity|]. split; [reflexivity|].
  split; [reflexivity|].
  exact (deploy_first_error_destructive_hint_once string sample_endpoint
           no_color false (Some "prod"%string) "cj1" false false
           (Some "prod"%string)
           {| migrationMessages := Some [];
              errors := Some [ {| description :=
                                   "Your migration includes destructive changes." |} ];
              projectDefinition := "server"%string |}
           {| deploying := false; definition := Some "local"%string;
              activeCluster := "shared-eu-west-1"; env_default := None |}
           [] _ [] eq_refl eq_refl eq_refl).
Defined.

(** On a concrete run: this migration result has a message and no
    errors list; on an existing project [deploy] throws while it picks the
    header, before [definition.set], and the definition in memory stays the
    local one. *)
Lemma deploy_messages_without_errors_list_keeps_definition :
  let r := {| migrationMessages :=
                Some [ {| message := "The type `User` is created." |} ];
              errors := None;
              projectDefinition := "server"%string |} in
  let s := {| deploying := false; definition := Some "local"%string;
              activeCluster := "shared-eu-west-1"; env_default := None |} in
  exists e s' evs,
    deploy string sample_endpoint no_color false (Some "prod"%string) "cj1"
      false false (Some "prod"%string) (Ok r) s = (Throw e, s', evs)
    /\ definition s' = Some "local"%string
    /\ definition s' <> Some (projectDefinition r).
Proof.
  cbv zeta. eexists. eexists. eexists.
  split; [reflexivity|]. split; [reflexivity | discriminate].
Qed.

Lemma deploy_with_messages_sets_definition_witness :
  let m := {| message := "The type `User` is created." |} in
  let r := {| migrationMessages := Some [m]; errors := Some [];
              projectDefinition := "server"%string |} in
  let s := {| deploying := false; definition := Some "local"%string;
              activeCluster := "shared-eu-west-1"; env_default := None |} in
  migrationMessages r = Some [m]
  /\ errors r = Some []
  /\ exists s' evs,
       deploy string sample_endpoint no_color false (Some "prod"%string) "cj1"
         false false (Some "prod"%string) (Ok r) s = (Ok tt, s', evs)
       /\ definition s' = Some (projectDefinition r).
Proof.
  cbv zeta. split; [reflexivity|]. split; [reflexivity|].
  exact (deploy_with_messages_sets_definition string sample_endpoint no_color
           false (Some "prod"%string) "cj1" false false (Some "prod"%string)
           {| migrationMessages :=
                Some [ {| message := "The type `User` is created." |} ];
              errors := Some [];
              projectDefinition := "server"%string |}
           {| deploying := false; definition := Some "local"%string;
              activeCluster := "shared-eu-west-1"; env_default := None |}
           _ [] [] eq_refl eq_refl).
Defined.

(** ** The watch loop *)

(** C2, as stated, fails, in two ways.

    After a first deploy that found everything up to date, two file changes
    arrive in a row.  Both callbacks start while the flag is down, since
    the first has not yet reached [deploy], where the flag is raised; both
    reload the definition and both call [client.push]: two deploys are in
    flight.

    And the guard is read when the callback starts, not when the file
    change is delivered: a change delivered while a deploy is in flight,
    whose callback starts after that deploy has completed, is not dropped;
    it reloads the definition. *)
Lemma watch_two_deploys_in_flight :
  let cb := {| cb_flags := {| Flags.target := Some "prod"%string;
                              Flags.force := false; Flags.watch := true;
                              Flags.new_service := None;
                              Flags.new_service_cluster := None;
                              Flags.alias := None |};
               cb_projectIsNew := false;
               cb_targetName := Some "prod"%string;
               cb_projectId := "cj1";
               cb_isLocal := false; cb_force := false;
               cb_projectName := Some "prod"%string |} in
  let s := {| deploying := false; definition := Some "local"%string;
              activeCluster := "shared-eu-west-1"; env_default := None |} in
  let up_to_date := {| migrationMessages := Some []; errors := Some [];
                       projectDefinition := "server"%string |} in
  ~ (forall acts y,
       exec_all string sample_endpoint no_color cb acts (watching string s)
       = Some y ->
       (pushing y <= 1)%nat)
  /\ exists y1 y2,
       exec_all string sample_endpoint no_color cb
         [FileChange; Immediate; LoadSettled (Ok "local"%string); FileChange]
         (watching string s) = Some y1
       /\ deploying (state y1) = true /\ pushing y1 = 1%nat
       /\ immediates y1 = 1%nat
       /\ exec_all string sample_endpoint no_color cb
            [PushSettled (Ok up_to_date); Immediate] y1 = Some y2
       /\ loading y2 = 1%nat
       /\ List.length (List.filter (is_load string) (output y2)) = 2%nat.
Proof.
  cbv zeta. split.
  - intros H.
    match type of H with
    | forall acts y, exec_all ?D ?ep ?c ?cb acts ?y0 = Some y -> _ =>
        destruct (exec_all D ep c cb
                    [FileChange; FileChange; Immediate; Immediate;
                     LoadSettled (Ok "local"%string);
                     LoadSettled (Ok "local"%string)] y0) as [y|] eqn:E
    end.
    + pose proof (H _ _ E) as Hle.
      vm_compute in E. injection E as <-. simpl in Hle. lia.
    + vm_compute in E. discriminate E.
  - eexists. eexists. split; [vm_compute; reflexivity|].
    repeat split; vm_compute; reflexivity.
Qed.

(** The same schedule seen from outside: two [client.push] calls are made
    and none has completed. *)
Lemma watch_two_pushes_observed :
  let cb := {| cb_flags := {| Flags.target := Some "prod"%string;
                              Flags.force := false; Flags.watch := true;
                              Flags.new_service := None;
                              Flags.new_service_cluster := None;
                              Flags.alias := None |};
               cb_projectIsNew := false;
               cb_targetName := Some "prod"%string;
               cb_projectId := "cj1";
               cb_isLocal := false; cb_force := false;
               cb_projectName := Some "prod"%string |} in
  let s := {| deploying := false; definition := Some "local"%string;
              activeCluster := "shared-eu-west-1"; env_default := None |} in
  exists y,
    exec_all string sample_endpoint no_color cb
      [FileChange; FileChange; Immediate; Immediate;
       LoadSettled (Ok "local"%string); LoadSettled (Ok "local"%string)]
      (watching string s) = Some y
    /\ pushing y = 2%nat
    /\ List.length (List.filter (is_push string) (output y)) = 2%nat
    /\ existsb (is_endpoint string sample_endpoint "cj1") (output y) = false.
Proof.
  cbv zeta. eexists. split; [vm_compute; reflexivity|].
  repeat split; vm_compute; reflexivity.
Qed.

Lemma watch_callback_dropped_while_deploying_witness :
  let cb := {| cb_flags := {| Flags.target := Some "prod"%string;
                              Flags.force := false; Flags.watch := true;
                              Flags.new_service := None;
                              Flags.new_service_cluster := None;
                              Flags.alias := None |};
               cb_projectIsNew := false;
               cb_targetName := Some "prod"%string;
               cb_projectId := "cj1";
               cb_isLocal := false; cb_force := false;
               cb_projectName := Some "prod"%string |} in
  let s := {| deploying := true; definition := Some "local"%string;
              activeCluster := "shared-eu-west-1"; env_default := None |} in
  let y := {| state := s; output := []; immediates := 1; loading := 0;
              pushing := 1 |} in
  deploying (state y) = true
  /\ immediates y = 1%nat
  /\ exec string sample_endpoint no_color cb Immediate y
     = Some {| state := s; output := []; immediates := 0; loading := 0;
               pushing := 1 |}.
Proof.
  cbv zeta. split; [reflexivity|]. split; [reflexivity|].
  exact (watch_callback_dropped_while_deploying string sample_endpoint no_color
           _
           {| state := {| deploying := true; definition := Some "local"%string;
                          activeCluster := "shared-eu-west-1";
                          env_default := None |};
              output := []; immediates := 1; loading := 0; pushing := 1 |}
           0 eq_refl eq_refl).
Defined.

(** ** [Deploy.run] *)

Lemma run_unresolved_target_creates_project_witness :
  let flags := {| Flags.target := Some "prod"%string;
                  Flags.force := false; Flags.watch := false;
                  Flags.new_service := None;
                  Flags.new_service_cluster := None;
                  Flags.alias := None |} in
  let mr := {| migrationMessages := Some []; errors := Some [];
               projectDefinition := "server"%string |} in
  let w := {| auth_reply := Ok tt; load_reply := Ok "local"%string;
              create_reply := Ok "cj2"%string; push_reply := Ok mr |} in
  let s := {| deploying := false; definition := None;
              activeCluster := "shared-eu-west-1"; env_default := None |} in
  let getTargetWithName := fun _ : option string => @None FoundTarget in
  JS.truthy (Flags.target flags) = true
  /\ JS.truthy (Flags.new_service flags) = false
  /\ getTargetWithName (Flags.target flags) = None
  /\ auth_reply string w = Ok tt
  /\ load_reply string w = Ok "local"%string
  /\ create_reply string w = Ok "cj2"%string
  /\ push_reply string w = Ok mr
  /\ exists r s' evs,
       run string "" getTargetWithName (fun _ => "dev"%string)
         (fun _ => true) (fun _ => None) sample_endpoint "/service"
         "Silly Name" no_color flags w s = (r, s', evs)
       /\ existsb (is_create string) evs = true
       /\ forall t, r <> Throw (ServiceDoesntExistError t).
Proof.
  cbv zeta. repeat (split; [reflexivity|]).
  exact (run_unresolved_target_creates_project string ""
           (fun _ => None) (fun _ => "dev"%string) (fun _ => true)
           (fun _ => None) sample_endpoint "/service" "Silly Name" no_color
           {| Flags.target := Some "prod"%string;
              Flags.force := false; Flags.watch := false;
              Flags.new_service := None;
              Flags.new_service_cluster := None;
              Flags.alias := None |}
           {| auth_reply := Ok tt; load_reply := Ok "local"%string;
              create_reply := Ok "cj2"%string;
              push_reply := Ok {| migrationMessages := Some [];
                                  errors := Some [];
                                  projectDefinition := "server"%string |} |}
           {| deploying := false; definition := None;
              activeCluster := "shared-eu-west-1"; env_default := None |}
           "local" "cj2" _ eq_refl eq_refl eq_refl eq_refl eq_refl eq_refl
           eq_refl).
Defined.

(** * The further properties on concrete runs *)

Arguments is_stop {ProjectDefinition} ev.
Arguments is_local_write {ProjectDefinition} ev.
Arguments is_set_default {ProjectDefinition} ev.
Arguments is_watch {ProjectDefinition} ev.
Arguments count {ProjectDefinition} p evs.

(** ** src/utils/file.ts *)

Lemma writeProjectFile_invalid_path_writes_default_witness :
  let info := {| projectId := "abc123"; version := Some "1"%string;
                 schema := "type User { id: ID! }" |} in
  let resolver : gmap string string := {[ "notes.txt" := "keep"%string ]} in
  let written :=
    writeProjectFile "project.graphcool" ".graphcool" info resolver
      (Some "notes.txt"%string) in
  isValidProjectFilePath ".graphcool" (Some "notes.txt"%string) = false
  /\ written !! "project.graphcool" = Some (projectInfoToContents info)
  /\ forall q : string,
       q <> "project.graphcool"%string -> written !! q = resolver !! q.
Proof.
  cbv zeta. split; [reflexivity|].
  exact (writeProjectFile_invalid_path_writes_default "project.graphcool"
           ".graphcool"
           {| projectId := "abc123"; version := Some "1"%string;
              schema := "type User { id: ID! }" |}
           {[ "notes.txt" := "keep"%string ]} (Some "notes.txt"%string)
           eq_refl).
Defined.

Lemma readProjectId_first_occurrence_run_witness :
  let contents :=
    ("# project: abc123" ++ JS.nl ++ "# project: zzz" ++ JS.nl
     ++ "type User { id: ID! }")%string in
  let resolver : gmap string string := {[ "project.graphcool" := contents ]} in
  resolver !! "project.graphcool" = Some contents
  /\ JS.includes "# project: " contents = true
  /\ exists pre ident rest,
       contents = (pre ++ "# project: " ++ ident ++ rest)%string
       /\ (forall k : nat, (k < String.length pre)%nat ->
             JS.startsWith "# project: " (JS.drop k contents) = false)
       /\ string_forallb JS.lower_alnum ident = true
       /\ (rest = ""%string
           \/ exists c r, rest = String c r /\ JS.lower_alnum c = false)
       /\ readProjectIdFromProjectFile resolver "project.graphcool"
          = Ok (Some ident).
Proof.
  cbv zeta. split; [apply lookup_singleton_eq|]. split; [reflexivity|].
  exact (readProjectId_first_occurrence_run
           {[ "project.graphcool"
              := ("# project: abc123" ++ JS.nl ++ "# project: zzz" ++ JS.nl
                  ++ "type User { id: ID! }")%string ]}
           "project.graphcool"
           ("# project: abc123" ++ JS.nl ++ "# project: zzz" ++ JS.nl
            ++ "type User { id: ID! }")%string
           (lookup_singleton_eq _ _) eq_refl).
Defined.

Lemma readVersion_first_occurrence_run_witness :
  let contents := ("# project: abc123" ++ JS.nl ++ "type User")%string in
  let resolver : gmap string string := {[ "project.graphcool" := contents ]} in
  resolver !! "project.graphcool" = Some contents
  /\ readVersionFromProjectFile resolver "project.graphcool" = Ok None.
Proof.
  cbv zeta. split; [apply lookup_singleton_eq|].
  exact (readVersion_first_occurrence_run
           {[ "project.graphcool"
              := ("# project: abc123" ++ JS.nl ++ "type User")%string ]}
           "project.graphcool"
           ("# project: abc123" ++ JS.nl ++ "type User")%string
           (lookup_singleton_eq _ _)).
Defined.

Lemma readProjectInfo_defined_id_witness :
  let contents :=
    ("# project: abc123" ++ JS.nl ++ "# version: 7" ++ JS.nl ++ JS.nl
     ++ "type User { id: ID! }")%string in
  let resolver : gmap string string := {[ "project.graphcool" := contents ]} in
  resolver !! "project.graphcool" = Some contents
  /\ (readProjectInfoFromProjectFile resolver "project.graphcool" = Ok None
      \/ exists info,
           readProjectInfoFromProjectFile resolver "project.graphcool"
           = Ok (Some info)
           /\ projectId info <> ""%string
           /\ string_forallb JS.lower_alnum (projectId info) = true
           /\ readProjectIdFromProjectFile resolver "project.graphcool"
              = Ok (Some (projectId info))
           /\ readVersionFromProjectFile resolver "project.graphcool"
              = Ok (version info)
           /\ readDataModelFromProjectFile resolver "project.graphcool"
              = Ok (schema info)).
Proof.
  cbv zeta. split; [apply lookup_singleton_eq|].
  exact (readProjectInfo_defined_id
           {[ "project.graphcool"
              := ("# project: abc123" ++ JS.nl ++ "# version: 7" ++ JS.nl
                  ++ JS.nl ++ "type User { id: ID! }")%string ]}
           "project.graphcool"
           ("# project: abc123" ++ JS.nl ++ "# version: 7" ++ JS.nl ++ JS.nl
            ++ "type User { id: ID! }")%string
           (lookup_singleton_eq _ _)).
Defined.

Lemma readDataModel_cuts_inside_header_witness :
  let header :=
    ("# project: prototype1" ++ JS.nl ++ "# version: 1" ++ JS.nl
     ++ JS.nl)%string in
  let body := "type User { id: ID! }"%string in
  let resolver : gmap string string :=
    {[ "project.graphcool" := (header ++ body)%string ]} in
  resolver !! "project.graphcool" = Some (header ++ body)%string
  /\ JS.includes "type" header = true
  /\ exists n : nat,
       (n + 4 <= String.length header)%nat
       /\ readDataModelFromProjectFile resolver "project.graphcool"
          = Ok (JS.drop n (header ++ body))
       /\ (String.length body + 4
           <= String.length (JS.drop n (header ++ body)))%nat.
Proof.
  cbv zeta. split; [apply lookup_singleton_eq|]. split; [reflexivity|].
  exact (readDataModel_cuts_inside_header
           {[ "project.graphcool"
              := (("# project: prototype1" ++ JS.nl ++ "# version: 1"
                   ++ JS.nl ++ JS.nl) ++ "type User { id: ID! }")%string ]}
           "project.graphcool"
           ("# project: prototype1" ++ JS.nl ++ "# version: 1" ++ JS.nl
            ++ JS.nl)%string
           "type User { id: ID! }"
           (lookup_singleton_eq _ _) eq_refl).
Defined.

(** ** [Deploy.run] *)

Lemma run_resolved_target_deploys_to_it_witness :
  let ft := {| targetName := "prod";
               target := {| Target.cluster := "shared-eu-west-1";
                            Target.id := "cj1" |} |} in
  let lookup := fun _ : option string => Some ft in
  let w := {| auth_reply := Ok tt; load_reply := Ok "local"%string;
              create_reply := Throw (RemoteError "unused");
              push_reply := Throw (RemoteError "ECONNRESET") |} in
  JS.truthy (Flags.new_service sample_flags) = false
  /\ lookup (Flags.target sample_flags) = Some ft
  /\ auth_reply string w = Ok tt
  /\ load_reply string w = Ok "local"%string
  /\ match
       run string "" lookup (fun _ => "dev"%string) (fun _ => true)
         (fun _ => None) sample_endpoint "/service" "Silly Name" no_color
         sample_flags w (sample_state string "")
     with
     | (_, _, evs) =>
         existsb (is_create string) evs = false
         /\ existsb is_local_write evs = false
         /\ In (ClientPush (Target.id (target ft)) (Flags.force sample_flags)
                  false (Some "local"%string)) evs
     end.
Proof.
  cbv zeta. do 4 (split; [reflexivity|]).
  exact (run_resolved_target_deploys_to_it string ""
           (fun _ => Some {| targetName := "prod";
                             target := {| Target.cluster := "shared-eu-west-1";
                                          Target.id := "cj1" |} |})
           (fun _ => "dev"%string) (fun _ => true) (fun _ => None)
           sample_endpoint "/service" "Silly Name" no_color sample_flags
           {| auth_reply := Ok tt; load_reply := Ok "local"%string;
              create_reply := Throw (RemoteError "unused");
              push_reply := Throw (RemoteError "ECONNRESET") |}
           (sample_state string "") _ "local"
           eq_refl eq_refl eq_refl eq_refl).
Defined.

Lemma run_new_service_creates_and_registers_witness :
  let flags := {| Flags.target := None; Flags.force := true;
                  Flags.watch := false;
                  Flags.new_service := Some "Blog"%string;
                  Flags.new_service_cluster := Some "local"%string;
                  Flags.alias := Some "blog"%string |} in
  let lookup := fun _ : option string =>
                  Some {| targetName := "prod";
                          target := {| Target.cluster := "shared-eu-west-1";
                                       Target.id := "cj1" |} |} in
  let w := {| auth_reply := Ok tt; load_reply := Ok "local"%string;
              create_reply := Ok "cj2"%string;
              push_reply := Throw (RemoteError "ECONNRESET") |} in
  JS.truthy (Flags.new_service flags) = true
  /\ auth_reply string w = Ok tt
  /\ load_reply string w = Ok "local"%string
  /\ create_reply string w = Ok "cj2"%string
  /\ match
       run string "" lookup (fun _ => "dev"%string) (fun _ => true)
         (fun _ => None) sample_endpoint "/service" "Silly Name" no_color
         flags w (sample_state string "")
     with
     | (_, _, evs) =>
         In (ClientCreateProject "Blog" ""%string (Some "blog"%string) None)
           evs
         /\ In (SetLocalTarget (Some "dev"%string) "local/cj2") evs
         /\ In SaveLocalRC evs
         /\ In (ClientPush "cj2" true false (Some "local"%string)) evs
     end.
Proof.
  cbv zeta. do 4 (split; [reflexivity|]).
  exact (run_new_service_creates_and_registers string ""
           (fun _ => Some {| targetName := "prod";
                             target := {| Target.cluster := "shared-eu-west-1";
                                          Target.id := "cj1" |} |})
           (fun _ => "dev"%string) (fun _ => true) (fun _ => None)
           sample_endpoint "/service" "Silly Name" no_color
           {| Flags.target := None; Flags.force := true;
              Flags.watch := false;
              Flags.new_service := Some "Blog"%string;
              Flags.new_service_cluster := Some "local"%string;
              Flags.alias := Some "blog"%string |}
           {| auth_reply := Ok tt; load_reply := Ok "local"%string;
              create_reply := Ok "cj2"%string;
              push_reply := Throw (RemoteError "ECONNRESET") |}
           (sample_state string "") "local" "cj2"
           eq_refl eq_refl eq_refl eq_refl).
Defined.

Lemma run_unresolved_target_registers_unnamed_witness :
  let lookup := fun _ : option string => @None FoundTarget in
  let w := {| auth_reply := Ok tt; load_reply := Ok "local"%string;
              create_reply := Ok "cj2"%string;
              push_reply := Throw (RemoteError "ECONNRESET") |} in
  JS.truthy (Flags.new_service sample_flags) = false
  /\ lookup (Flags.target sample_flags) = None
  /\ auth_reply string w = Ok tt
  /\ load_reply string w = Ok "local"%string
  /\ create_reply string w = Ok "cj2"%string
  /\ match
       run string "" lookup (fun _ => "dev"%string) (fun _ => true)
         (fun _ => None) sample_endpoint "/service" "Silly Name" no_color
         sample_flags w (sample_state string "")
     with
     | (_, _, evs) =>
         In (ClientCreateProject "Silly Name" ""%string None None) evs
         /\ In (SetLocalTarget None "shared-eu-west-1/cj2") evs
         /\ In SaveLocalRC evs
         /\ In (ClientPush "cj2" false false (Some "local"%string)) evs
     end.
Proof.
  cbv zeta. do 5 (split; [reflexivity|]).
  exact (run_unresolved_target_registers_unnamed string ""
           (fun _ => None) (fun _ => "dev"%string) (fun _ => true)
           (fun _ => None) sample_endpoint "/service" "Silly Name" no_color
           sample_flags
           {| auth_reply := Ok tt; load_reply := Ok "local"%string;
              create_reply := Ok "cj2"%string;
              push_reply := Throw (RemoteError "ECONNRESET") |}
           (sample_state string "") "local" "cj2"
           eq_refl eq_refl eq_refl eq_refl eq_refl).
Defined.

Lemma run_stops_at_auth_or_load_failure_witness :
  let w := {| auth_reply := Throw (RemoteError "not logged in");
              load_reply := Ok "local"%string;
              create_reply := Ok "cj2"%string;
              push_reply := Throw (RemoteError "ECONNRESET") |} in
  let e := RemoteError "not logged in" in
  let s := sample_state string "" in
  (auth_reply string w = Throw e
   \/ (auth_reply string w = Ok tt /\ load_reply string w = Throw e))
  /\ match
       run string "" (fun _ => None) (fun _ => "dev"%string) (fun _ => true)
         (fun _ => None) sample_endpoint "/service" "Silly Name" no_color
         sample_flags w s
     with
     | (r, s', evs) =>
         r = Throw e
         /\ existsb (is_create string) evs = false
         /\ existsb (is_push string) evs = false
         /\ existsb is_local_write evs = false
         /\ existsb is_watch evs = false
         /\ deploying s' = deploying s
         /\ definition s' = definition s
     end.
Proof.
  cbv zeta. split; [left; reflexivity|].
  exact (run_stops_at_auth_or_load_failure string ""
           (fun _ => None) (fun _ => "dev"%string) (fun _ => true)
           (fun _ => None) sample_endpoint "/service" "Silly Name" no_color
           sample_flags
           {| auth_reply := Throw (RemoteError "not logged in");
              load_reply := Ok "local"%string;
              create_reply := Ok "cj2"%string;
              push_reply := Throw (RemoteError "ECONNRESET") |}
           (sample_state string "") (RemoteError "not logged in")
           (or_introl eq_refl)).
Defined.

Lemma run_failed_creation_registers_nothing_witness :
  let lookup := fun _ : option string => @None FoundTarget in
  let w := {| auth_reply := Ok tt; load_reply := Ok "local"%string;
              create_reply := Throw (RemoteError "quota exceeded");
              push_reply := Throw (RemoteError "ECONNRESET") |} in
  (JS.truthy (Flags.new_service sample_flags) = true
   \/ lookup (Flags.target sample_flags) = None)
  /\ auth_reply string w = Ok tt
  /\ load_reply string w = Ok "local"%string
  /\ create_reply string w = Throw (RemoteError "quota exceeded")
  /\ match
       run string "" lookup (fun _ => "dev"%string) (fun _ => true)
         (fun _ => None) sample_endpoint "/service" "Silly Name" no_color
         sample_flags w (sample_state string "")
     with
     | (r, _, evs) =>
         r = Throw (RemoteError "quota exceeded")
         /\ existsb (is_create string) evs = true
         /\ existsb is_local_write evs = false
         /\ existsb (is_push string) evs = false
         /\ existsb is_stop evs = false
     end.
Proof.
  cbv zeta. split; [right; reflexivity|]. do 3 (split; [reflexivity|]).
  exact (run_failed_creation_registers_nothing string ""
           (fun _ => None) (fun _ => "dev"%string) (fun _ => true)
           (fun _ => None) sample_endpoint "/service" "Silly Name" no_color
           sample_flags
           {| auth_reply := Ok tt; load_reply := Ok "local"%string;
              create_reply := Throw (RemoteError "quota exceeded");
              push_reply := Throw (RemoteError "ECONNRESET") |}
           (sample_state string "") "local" (RemoteError "quota exceeded")
           (or_intror eq_refl) eq_refl eq_refl eq_refl).
Defined.

Lemma run_sets_default_target_iff_none_witness :
  let lookup := fun _ : option string => @None FoundTarget in
  let w := {| auth_reply := Ok tt; load_reply := Ok "local"%string;
              create_reply := Ok "cj2"%string;
              push_reply := Throw (RemoteError "ECONNRESET") |} in
  let s := {| deploying := false; definition := None;
              activeCluster := "shared-eu-west-1";
              env_default := Some "prod"%string |} in
  (JS.truthy (Flags.new_service sample_flags) = true
   \/ lookup (Flags.target sample_flags) = None)
  /\ auth_reply string w = Ok tt
  /\ load_reply string w = Ok "local"%string
  /\ create_reply string w = Ok "cj2"%string
  /\ match
       run string "" lookup (fun _ => "dev"%string) (fun _ => true)
         (fun _ => None) sample_endpoint "/service" "Silly Name" no_color
         sample_flags w s
     with
     | (_, _, evs) =>
         existsb is_set_default evs = negb (JS.truthy (env_default s))
     end.
Proof.
  cbv zeta. split; [right; reflexivity|]. do 3 (split; [reflexivity|]).
  exact (run_sets_default_target_iff_none string ""
           (fun _ => None) (fun _ => "dev"%string) (fun _ => true)
           (fun _ => None) sample_endpoint "/service" "Silly Name" no_color
           sample_flags
           {| auth_reply := Ok tt; load_reply := Ok "local"%string;
              create_reply := Ok "cj2"%string;
              push_reply := Throw (RemoteError "ECONNRESET") |}
           {| deploying := false; definition := None;
              activeCluster := "shared-eu-west-1";
              env_default := Some "prod"%string |}
           "local" "cj2"
           (or_intror eq_refl) eq_refl eq_refl eq_refl).
Defined.

(** ** The watch loop *)

Lemma watch_stalls_after_rejected_push_witness :
  let s := sample_state string "local" in
  let e := RemoteError "ECONNRESET" in
  deploying s = false
  /\ exists y1,
       exec_all string sample_endpoint no_color sample_callback
         [FileChange; Immediate; LoadSettled (Ok "local"%string);
          PushSettled (Throw e)] (watching string s) = Some y1
       /\ deploying (state y1) = true
       /\ forall acts y',
            exec_all string sample_endpoint no_color sample_callback acts y1
            = Some y' ->
            output y' = output y1 /\ deploying (state y') = true.
Proof.
  cbv zeta. split; [reflexivity|].
  exact (watch_stalls_after_rejected_push string sample_endpoint no_color
           sample_callback (sample_state string "local") "local"
           (RemoteError "ECONNRESET") eq_refl).
Defined.

Lemma watch_cycle_returns_to_idle_witness :
  let s := sample_state string "local" in
  let r := {| migrationMessages :=
                Some [ {| message := "The type `User` is created." |} ];
              errors := Some [];
              projectDefinition := "server"%string |} in
  deploying s = false
  /\ migrationMessages r
     = Some [ {| message := "The type `User` is created." |} ]
  /\ errors r = Some []
  /\ exists y',
       exec_all string sample_endpoint no_color sample_callback
         [FileChange; Immediate; LoadSettled (Ok "local"%string);
          PushSettled (Ok r)] (watching string s) = Some y'
       /\ deploying (state y') = false
       /\ immediates y' = 0%nat /\ loading y' = 0%nat /\ pushing y' = 0%nat
       /\ count (is_load string) (output y') = 1%nat
       /\ count (is_push string) (output y') = 1%nat
       /\ List.last (output y') ActionStop = Log "Watching for change...".
Proof.
  cbv zeta. do 3 (split; [reflexivity|]).
  exact (watch_cycle_returns_to_idle string sample_endpoint no_color
           sample_callback (sample_state string "local") "local"
           {| migrationMessages :=
                Some [ {| message := "The type `User` is created." |} ];
              errors := Some [];
              projectDefinition := "server"%string |}
           _ [] eq_refl eq_refl eq_refl).
Defined.

Lemma watch_pushes_follow_loads_witness :
  let s := sample_state string "local" in
  let acts := [FileChange; FileChange; Immediate; Immediate;
               LoadSettled (Ok "local"%string);
               LoadSettled (Throw (RemoteError "EACCES"))] in
  let y' := {| state := {| deploying := true;
                           definition := Some "local"%string;
                           activeCluster := "shared-eu-west-1";
                           env_default := None |};
               output := [DefinitionLoad sample_flags;
                          DefinitionLoad sample_flags;
                          ActionStart "Deploying to prod with target prod";
                          ClientPush "cj1" false false (Some "local"%string)];
               immediates := 0; loading := 0; pushing := 1 |} in
  exec_all string sample_endpoint no_color sample_callback acts
    (watching string s) = Some y'
  /\ (count (is_push string) (output y') + loading y'
      <= count (is_load string) (output y'))%nat.
Proof.
  cbv zeta. split; [vm_compute; reflexivity|].
  apply (watch_pushes_follow_loads string sample_endpoint no_color
           sample_callback
           [FileChange; FileChange; Immediate; Immediate;
            LoadSettled (Ok "local"%string);
            LoadSettled (Throw (RemoteError "EACCES"))]
           (sample_state string "local")).
  vm_compute. reflexivity.
Defined.

(** * The absent errors list and the round trip on concrete runs *)

Arguments is_definition_set {ProjectDefinition} ev.

Lemma deploy_messages_without_errors_list_throws_before_set_witness :
  let m := {| message := "The type `User` is created." |} in
  let r := {| migrationMessages := Some [m]; errors := None;
              projectDefinition := "server"%string |} in
  let s := {| deploying := false; definition := Some "local"%string;
              activeCluster := "shared-eu-west-1"; env_default := None |} in
  migrationMessages r = Some [m]
  /\ errors r = None
  /\ exists msg s' evs,
       deploy string sample_endpoint no_color false (Some "prod"%string) "cj1"
         false false (Some "prod"%string) (Ok r) s
       = (Throw (TypeError msg), s', evs)
       /\ definition s' = definition s
       /\ existsb is_definition_set evs = false
       /\ deploying s' = true.
Proof.
  cbv zeta. do 2 (split; [reflexivity|]).
  exact (deploy_messages_without_errors_list_throws_before_set string
           sample_endpoint no_color (Some "prod"%string) "cj1" false false
           (Some "prod"%string)
           {| migrationMessages :=
                Some [ {| message := "The type `User` is created." |} ];
              errors := None;
              projectDefinition := "server"%string |}
           {| deploying := false; definition := Some "local"%string;
              activeCluster := "shared-eu-west-1"; env_default := None |}
           _ [] eq_refl eq_refl).
Defined.

(** C9, as stated, fails, in two ways.  With the version [prototype1] the
    schema read back starts at the [type] inside the version line: it
    begins with [type1], not with [type User].  And a path that is not a
    project file path is not the file written: with the path [notes.txt]
    the default project file is written, and reading [notes.txt] back
    throws. *)
Lemma project_file_round_trip_fails_on_version_and_path :
  readProjectInfoFromProjectFile
    (writeProjectFile "project.graphcool" ".graphcool"
       {| projectId := "abc123"; version := Some "prototype1"%string;
          schema := "type User { id: ID! }" |}
       ∅ (Some "project.graphcool"%string))
    "project.graphcool"
  = Ok (Some {| projectId := "abc123"; version := Some "prototype1"%string;
                schema := ("type1" ++ JS.nl ++ JS.nl
                           ++ "type User { id: ID! }")%string |})
  /\ JS.startsWith "type User"
       ("type1" ++ JS.nl ++ JS.nl ++ "type User { id: ID! }") = false
  /\ readProjectInfoFromProjectFile
       (writeProjectFile "project.graphcool" ".graphcool"
          {| projectId := "abc123"; version := Some "1"%string;
             schema := "type User { id: ID! }" |}
          ∅ (Some "notes.txt"%string))
       "notes.txt"
     = Throw (FileError "notes.txt").
Proof.
  split; [|split; [reflexivity|]].
  - unfold readProjectInfoFromProjectFile, readProjectIdFromProjectFile,
      readVersionFromProjectFile, readDataModelFromProjectFile,
      writeProjectFile, read, write.
    change (JS.to_string
              (projectFilePath "project.graphcool" ".graphcool"
                 (Some "project.graphcool"%string)))
      with "project.graphcool"%string.
    rewrite lookup_insert_eq. vm_compute. reflexivity.
  - unfold readProjectInfoFromProjectFile, readProjectIdFromProjectFile,
      writeProjectFile, read, write.
    change (JS.to_string
              (projectFilePath "project.graphcool" ".graphcool"
                 (Some "notes.txt"%string)))
      with "project.graphcool"%string.
    rewrite lookup_insert_ne by discriminate.
    rewrite lookup_empty. reflexivity.
Qed.

Lemma project_file_round_trip_at_written_path_witness :
  JS.includes "type" "1" = false
  /\ ((exists p pre,
         Some "notes.txt"%string = Some p /\ p <> ""%string
         /\ p = (pre ++ ".graphcool")%string
         /\ "project.graphcool"%string = p)
      \/ ((forall p pre,
             Some "notes.txt"%string = Some p -> p <> ""%string ->
             p <> (pre ++ ".graphcool")%string)
          /\ "project.graphcool"%string = "project.graphcool"%string))
  /\ exists info',
       readProjectInfoFromProjectFile
         (writeProjectFile "project.graphcool" ".graphcool"
            {| projectId := "abc123"; version := Some "1"%string;
               schema := "type User { id: ID! }" |}
            ∅ (Some "notes.txt"%string))
         "project.graphcool"
       = Ok (Some info')
       /\ projectId info' = "abc123"%string
       /\ schema info' = "type User { id: ID! }"%string
       /\ JS.startsWith "type User" (schema info') = true.
Proof.
  assert (Hinv : forall p pre,
            Some "notes.txt"%string = Some p -> p <> ""%string ->
            p <> (pre ++ ".graphcool")%string).
  { intros p pre Hp _ Hsuf. injection Hp as <-.
    assert (E : JS.endsWith ".graphcool" "notes.txt" = true).
    { apply endsWith_suffix. exists pre. exact Hsuf. }
    discriminate E. }
  split; [reflexivity|]. split.
  - right. split; [exact Hinv | reflexivity].
  - exact (project_file_round_trip_at_written_path "project.graphcool"
             ".graphcool" ∅ (Some "notes.txt"%string) "project.graphcool"
             "1" eq_refl (or_intror (conj Hinv eq_refl))).
Defined.
